(** * Deep Lynx: ingestion pipeline, ontology key repository and cache

    A shallow embedding of the parts of the Deep Lynx data warehouse that its
    specification makes promises about:

    - [services/cache/cache.ts]: the in-memory and the Redis cache adapter;
    - [metatype_key_repository.ts] and [metatype_key_mapper.ts]: the
      repository of metatype keys, its transactional bulk save and its
      read-through key-list cache, over the [metatype_keys] table;
    - [data_source_routes.ts]: the handlers of the data source routes;
    - [domain_objects/.../import.ts]: the [Import] and [DataStaging] records;
    - the time-series column validation and the shape fingerprint, which the
      repository's tests and type declarations exercise.

    Promises are modelled as the value they resolve to; an operation that
    reads or writes the database or the cache takes the state and returns the
    new one. *)

From Stdlib Require Import ZArith Bool Ascii String List Permutation Sorted Lia.
From stdpp Require Import base option list gmap strings pretty fin_maps.

Import ListNotations.
Local Open Scope string_scope.

(** ** The result envelope ([common_classes/result.ts]) *)

(** Modelled from the spec: the [Result] class is not part of the sources at
    hand.  After section 6 every public operation answers with a uniform
    envelope that carries either a value or an error; the error is a message
    with an HTTP-like code, [500] unless the caller names one, as in
    [Result.Failure(`unable to find data source`, 404)]. *)
Inductive Result (T : Type) : Type :=
| Success (value : T)
| Failure (error : string) (errorCode : nat).

Arguments Success {T} value.
Arguments Failure {T} error errorCode.

Definition isError {T} (r : Result T) : bool :=
  match r with
  | Success _ => false
  | Failure _ _ => true
  end.

(** [Result.Failure(msg)] without a code. *)
Definition Failure_ {T} (error : string) : Result T := Failure error 500.

(** [Result.Pass(r)] hands on the error of [r] under another value type; the
    repository only passes results that are errors, so that [Pass] of
    [Failure e code] is written [Failure e code] below. *)

(** ** JavaScript values

    What a cache slot, a query parameter or a payload can hold.  Numbers are
    the integers plus [NaN]; an object is the list of its own keys in
    insertion order. *)

#[warnings="-register-all"]
Inductive value : Type :=
| VUndefined
| VNull
| VBool (b : bool)
| VNum (z : Z)
| VNaN
| VStr (s : string)
| VArr (items : list value)
| VObj (fields : list (string * value)).

(** JavaScript's [ToBoolean]. *)
Definition truthy (v : value) : bool :=
  match v with
  | VUndefined | VNull | VNaN => false
  | VBool b => b
  | VNum z => negb (z =? 0)%Z
  | VStr s => negb (s =? "")
  | VArr _ | VObj _ => true
  end.

(** Induction over [value] that reaches inside arrays and objects. *)
Section value_induction.
Variable P : value -> Prop.
Hypothesis Hundef : P VUndefined.
Hypothesis Hnull : P VNull.
Hypothesis Hbool : forall b, P (VBool b).
Hypothesis Hnum : forall z, P (VNum z).
Hypothesis Hnan : P VNaN.
Hypothesis Hstr : forall s, P (VStr s).
Hypothesis Harr : forall items, Forall P items -> P (VArr items).
Hypothesis Hobj :
  forall fields, Forall (fun kv => P (snd kv)) fields -> P (VObj fields).

Fixpoint value_rect' (v : value) : P v :=
  match v with
  | VUndefined => Hundef
  | VNull => Hnull
  | VBool b => Hbool b
  | VNum z => Hnum z
  | VNaN => Hnan
  | VStr s => Hstr s
  | VArr items =>
      Harr items
        ((fix go (l : list value) : Forall P l :=
            match l with
            | [] => @List.Forall_nil _ P
            | x :: l' => @List.Forall_cons _ P x l' (value_rect' x) (go l')
            end) items)
  | VObj fields =>
      Hobj fields
        ((fix go (l : list (string * value)) : Forall (fun kv => P (snd kv)) l :=
            match l with
            | [] => @List.Forall_nil _ _
            | kv :: l' =>
                @List.Forall_cons _ (fun kv => P (snd kv)) kv l' (value_rect' (snd kv)) (go l')
            end) fields)
  end.
End value_induction.

(** [String(v)], which is also how a template literal prints a value. *)
Fixpoint String_ (v : value) : string :=
  match v with
  | VUndefined => "undefined"
  | VNull => "null"
  | VBool true => "true"
  | VBool false => "false"
  | VNum z => pretty z
  | VNaN => "NaN"
  | VStr s => s
  | VArr items =>
      String.concat ","
        (List.map (fun x => match x with
                            | VUndefined | VNull => ""
                            | _ => String_ x
                            end) items)
  | VObj _ => "[object Object]"
  end.

(** ** Optional properties

    A property that a class declares optional ([id?: string]): an object may
    not carry it at all, or carry it with the value [undefined], with [null]
    or with a proper value.  The four differ under [Object.assign], which
    copies every property the source carries, whatever its value. *)
Inductive property (A : Type) : Type :=
| Absent
| Undefined
| Null
| Val (a : A).

Arguments Absent {A}.
Arguments Undefined {A}.
Arguments Null {A}.
Arguments Val {A} a.

#[global] Instance property_eq_dec {A} `{EqDecision A} : EqDecision (property A).
Proof. solve_decision. Defined.

(** [o.p]: a property that is not there reads [undefined]. *)
Definition read (p : property string) : value :=
  match p with
  | Absent | Undefined => VUndefined
  | Null => VNull
  | Val s => VStr s
  end.

(** One property under [Object.assign(target, source)]. *)
Definition assign_property {A} (target source : property A) : property A :=
  match source with
  | Absent => target
  | Undefined | Null | Val _ => source
  end.

(** ** The in-memory cache ([MemoryCacheImpl] in [services/cache/cache.ts])

    [_cache] is a [node-cache] store: a map from string keys to values.
    Expiry by time-to-live is outside the model: an expired entry is an
    absent one. *)

(** A [node-cache] store. *)
Abbreviation store := (gmap string value).

Module MemoryCacheImpl.

Section with_parser.
(** [JSON.parse], which either yields a value or throws. *)
Variable JSON_parse : value -> option value.

(** [get(key)]: a missing or falsy slot resolves to [undefined]; otherwise
    the parsed slot, or the raw slot when parsing throws. *)
Definition get (c : store) (key : string) : value :=
  match c !! key with
  | None => VUndefined
  | Some v =>
      if negb (truthy v) then VUndefined
      else match JSON_parse v with
           | Some parsed => parsed
           | None => v
           end
  end.
End with_parser.

(** [set(key, val, ttl)]: [node-cache] stores the value and answers [true]. *)
Definition set (c : store) (key : string) (val : value) : store * bool :=
  (<[key := val]> c, true).

(** [del(key)]: [node-cache] answers the number of deleted slots, 0 or 1,
    which [del] turns into [true]. *)
Definition del (c : store) (key : string) : store * bool :=
  (delete key c, true).

(** [flush()]. *)
Definition flush (c : store) : store * bool := (∅, true).

End MemoryCacheImpl.

(** ** Metatype keys ([domain_objects/.../metatype_key.ts]) *)

Module MetatypeKey.

(** Modelled from the spec: the [MetatypeKey] class is not part of the
    sources at hand.  A key is a plain ontology record (section 1); its
    fields are the columns that [MetatypeKeyMapper]'s statements read and
    write, with the audit columns of a stored row.  The fields that every
    key carries are plain values; the others are optional properties.
    Identifiers travel as strings; [options], [default_value] and
    [validation] are kept as the text [JSON.stringify] gives for them;
    [deleted_at] is the time at which the key was archived, of which only
    the presence is kept. *)
Record t : Type := mk {
  id : property string;
  metatype_id : property string;
  container_id : property string;
  name : string;
  description : string;
  property_name : string;
  required : bool;
  data_type : string;
  options : property string;
  default_value : property string;
  validation : property string;
  created_by : property string;
  modified_by : property string;
  deleted_at : property unit
}.

#[global] Instance eq_dec : EqDecision t.
Proof. solve_decision. Defined.

(** [Object.assign(target, source)]: every property that [source] carries
    replaces the one of [target], be its value [undefined] or [null]; only
    a property that [source] does not carry leaves [target]'s in place. *)
Definition assign (target source : t) : t :=
  {| id := assign_property (id target) (id source);
     metatype_id := assign_property (metatype_id target) (metatype_id source);
     container_id := assign_property (container_id target) (container_id source);
     name := name source;
     description := description source;
     property_name := property_name source;
     required := required source;
     data_type := data_type source;
     options := assign_property (options target) (options source);
     default_value := assign_property (default_value target) (default_value source);
     validation := assign_property (validation target) (validation source);
     created_by := assign_property (created_by target) (created_by source);
     modified_by := assign_property (modified_by target) (modified_by source);
     deleted_at := assign_property (deleted_at target) (deleted_at source) |}.

(** [if (k.id)]: an id is truthy when it is a string other than the empty
    one. *)
Definition has_id (k : t) : option string :=
  match id k with
  | Val i => if String.eqb i "" then None else Some i
  | Absent | Undefined | Null => None
  end.

End MetatypeKey.

(** A user; only the id reaches the statements ([user.id!]). *)
Record User : Type := { user_id : option string }.

(** ** The database behind the mappers

    [metatype_keys] is a table of rows under bigint ids.  The columns are
    those that the statements of [MetatypeKeyMapper] name: [metatype_id] and
    [container_id] are bigints, [options], [default_value] and [validation]
    are jsonb, all of which may be NULL.  A jsonb column holds a JSON value,
    kept here as the text that [JSON.stringify] gives for it, so that the
    JSON value [null] is the text ["null"] and differs from NULL.  Of the
    time stamps only [deleted_at] is kept, as a flag; [created_at] and
    [modified_at] are outside the model. *)

Module KeyRow.

Record t : Type := mk {
  metatype_id : option Z;
  container_id : option Z;
  name : string;
  description : string;
  property_name : string;
  required : bool;
  data_type : string;
  options : option string;
  default_value : option string;
  validation : option string;
  created_by : option string;
  modified_by : option string;
  deleted_at : bool
}.

#[global] Instance eq_dec : EqDecision t.
Proof. solve_decision. Defined.

End KeyRow.

Abbreviation table := (gmap Z KeyRow.t).

(** A connection has the committed table and, while a transaction is open,
    the table as the transaction sees it. *)
Record Database : Type := {
  committed : table;
  in_flight : option table
}.

(** The statements a mapper sends.  The server may reject any of them; which
    ones it rejects, and with which message, is the oracle [db_error]. *)
Inductive Statement : Type :=
| StartTransaction | CompleteTransaction | RollbackTransaction
| CreateStatement | BulkCreateStatement
| UpdateStatement | BulkUpdateStatement
| RetrieveStatement | ListStatement
| DeleteStatement | ArchiveStatement | UnarchiveStatement.

(** What the repository takes from its surroundings: the validator of the
    domain class, [JSON.parse], class-transformer's [serialize] and
    [plainToClass], the database's failures, its reading of a text as a
    bigint ([None] for a text it rejects, as in [invalid input syntax for
    type bigint]) and the keys that its [get_metatype_keys] statement
    answers for a metatype, in the order in which it answers them, the name
    of the metatypes table, and the metatype repository's [deleteCached(id,
    containerID)]. *)
Record Collaborators : Type := {
  validationErrors : MetatypeKey.t -> option (list string);
  JSON_parse : value -> option value;
  serialize : list MetatypeKey.t -> string;
  plainToClass : value -> list MetatypeKey.t;
  db_error : Statement -> option string;
  bigint : string -> option Z;
  get_metatype_keys : table -> Z -> list MetatypeKey.t;
  MetatypeMapper_tableName : string;
  MetatypeRepository_deleteCached : value -> value -> store -> store
}.

(** *** The base mapper ([data_access_layer/mappers/mapper.ts]) *)

Module Mapper.

(** Modelled from the spec: [startTransaction], [completeTransaction] and
    [rollbackTransaction] of the base [Mapper] class are not part of the
    sources at hand.  After the specification's transaction rule (a failed
    transaction rolls back the in-flight batch only, never what was
    committed before) a transaction works on its own copy of the table,
    which commit installs and rollback drops. *)
Definition startTransaction (E : Collaborators) (db : Database)
  : Result unit * Database :=
  match db_error E StartTransaction with
  | Some e => (Failure_ e, db)
  | None => (Success tt, {| committed := committed db; in_flight := Some (committed db) |})
  end.

Definition completeTransaction (E : Collaborators) (db : Database)
  : Result bool * Database :=
  match db_error E CompleteTransaction with
  | Some e => (Failure_ e, db)
  | None =>
      match in_flight db with
      | Some t => (Success true, {| committed := t; in_flight := None |})
      | None => (Success true, db)
      end
  end.

Definition rollbackTransaction (E : Collaborators) (db : Database)
  : Result bool * Database :=
  (match db_error E RollbackTransaction with
   | Some e => Failure_ e
   | None => Success true
   end,
   {| committed := committed db; in_flight := None |}).

(** The error of a statement that the server could not carry out on the
    values it was given. *)
Definition statement_error : string := "the statement raised an error".

(** Modelled from the spec: [run] and [runStatement] of the base [Mapper]
    class are not part of the sources at hand.  A statement is executed
    inside the open transaction when one is passed and directly on the
    committed table otherwise; a statement that the server rejects, or that
    raises an error on its values ([effect] has no answer), changes nothing
    and is answered by a failure (section 6: every operation answers with a
    value or an error). *)
Definition run {A} (E : Collaborators) (stmt : Statement) (transaction : bool)
    (effect : table -> option (table * A)) (db : Database) : Result A * Database :=
  match db_error E stmt with
  | Some e => (Failure_ e, db)
  | None =>
      if transaction then
        match in_flight db with
        | Some t =>
            match effect t with
            | Some (t', a) =>
                (Success a, {| committed := committed db; in_flight := Some t' |})
            | None => (Failure_ statement_error, db)
            end
        | None => (Failure_ "no transaction in progress", db)
        end
      else
        match effect (committed db) with
        | Some (t', a) => (Success a, {| committed := t'; in_flight := in_flight db |})
        | None => (Failure_ statement_error, db)
        end
  end.

(** Modelled from the spec: [retrieve] of the base [Mapper] class is not
    part of the sources at hand.  After section 6 every operation answers
    with either a value or an error: a query that is rejected, that raises
    an error or that finds no row has no value to answer with and is
    answered by a failure. *)
Definition retrieve {A} (E : Collaborators) (stmt : Statement)
    (query : table -> option (option A)) (db : Database) : Result A :=
  match db_error E stmt with
  | Some e => Failure_ e
  | None =>
      match query (committed db) with
      | Some (Some a) => Success a
      | Some None => Failure "not found" 404
      | None => Failure_ statement_error
      end
  end.

End Mapper.

(** *** [MetatypeKeyMapper] ([metatype_key_mapper.ts]) *)

Module MetatypeKeyMapper.
Import MetatypeKey.

Definition tableName : string := "metatype_keys".

(** How a property reaches a statement: [pg-format]'s [%L] and the driver
    write [undefined] and [null] as NULL and a string as a quoted text. *)
Definition literal (p : property string) : option string :=
  match p with
  | Val s => Some s
  | Absent | Undefined | Null => None
  end.

(** [JSON.stringify(key.options)] as it reaches the statement: [undefined]
    has no JSON text and is written NULL, [null] is written as the text
    [null]. *)
Definition stringify (p : property string) : option string :=
  match p with
  | Absent | Undefined => None
  | Null => Some "null"
  | Val text => Some text
  end.

(** A text that is stored in a bigint column, cast with [::bigint] or
    compared with a bigint column: NULL stays NULL, and a text is read by
    the server.  There is no answer when the server rejects the text. *)
Definition to_bigint (E : Collaborators) (text : option string) : option (option Z) :=
  match text with
  | None => Some None
  | Some s => Some <$> bigint E s
  end.

(** What the driver and [resultClass] make of a column: a bigint comes back
    as its decimal text, NULL as [null], a jsonb as the value it holds, of
    which [null] is one. *)
Definition from_bigint (column : option Z) : property string :=
  match column with
  | Some z => Val (pretty z)
  | None => Null
  end.

Definition from_jsonb (column : option string) : property string :=
  match column with
  | Some text => if String.eqb text "null" then Null else Val text
  | None => Null
  end.

Definition from_text (column : option string) : property string :=
  match column with
  | Some s => Val s
  | None => Null
  end.

(** The key object that the mapper hands back for the row under the id
    [i]. *)
Definition of_row (i : Z) (row : KeyRow.t) : t :=
  {| id := Val (pretty i);
     metatype_id := from_bigint (KeyRow.metatype_id row);
     container_id := from_bigint (KeyRow.container_id row);
     name := KeyRow.name row;
     description := KeyRow.description row;
     property_name := KeyRow.property_name row;
     required := KeyRow.required row;
     data_type := KeyRow.data_type row;
     options := from_jsonb (KeyRow.options row);
     default_value := from_jsonb (KeyRow.default_value row);
     validation := from_jsonb (KeyRow.validation row);
     created_by := from_text (KeyRow.created_by row);
     modified_by := from_text (KeyRow.modified_by row);
     deleted_at := if KeyRow.deleted_at row then Val tt else Null |}.

(** The row that [createStatement] inserts for a key: the key's columns and
    the user as creator and modifier.  There is none when [metatype_id] or
    [container_id] is a text that the server does not read as a bigint. *)
Definition created_row (E : Collaborators) (userID : option string) (key : t)
  : option KeyRow.t :=
  metatype ← to_bigint E (literal (metatype_id key));
  container ← to_bigint E (literal (container_id key));
  Some {| KeyRow.metatype_id := metatype;
          KeyRow.container_id := container;
          KeyRow.name := name key;
          KeyRow.description := description key;
          KeyRow.property_name := property_name key;
          KeyRow.required := required key;
          KeyRow.data_type := data_type key;
          KeyRow.options := stringify (options key);
          KeyRow.default_value := stringify (default_value key);
          KeyRow.validation := stringify (validation key);
          KeyRow.created_by := userID;
          KeyRow.modified_by := userID;
          KeyRow.deleted_at := false |}.

(** [INSERT INTO metatype_keys(...) VALUES ... RETURNING *]: one new row
    per key, each under an id the table does not use yet; the statement
    inserts every row or, when one of them cannot be written, none. *)
Fixpoint createStatement (E : Collaborators) (userID : option string) (keys : list t)
    (tbl : table) : option (table * list t) :=
  match keys with
  | [] => Some (tbl, [])
  | key :: rest =>
      row ← created_row E userID key;
      let i := fresh (dom tbl) in
      '(tbl', rows) ← createStatement E userID rest (<[i := row]> tbl);
      Some (tbl', of_row i row :: rows)
  end.

(** The row that [fullUpdateStatement] leaves for a key over the stored
    row [old]: every column of the statement's [SET] list comes from the
    key, the others stay.  There is none when [metatype_id] or
    [container_id] does not read as a bigint. *)
Definition updated_row (E : Collaborators) (userID : option string) (old : KeyRow.t) (key : t)
  : option KeyRow.t :=
  metatype ← to_bigint E (literal (metatype_id key));
  container ← to_bigint E (literal (container_id key));
  Some {| KeyRow.metatype_id := metatype;
          KeyRow.container_id := container;
          KeyRow.name := name key;
          KeyRow.description := description key;
          KeyRow.property_name := property_name key;
          KeyRow.required := required key;
          KeyRow.data_type := data_type key;
          KeyRow.options := stringify (options key);
          KeyRow.default_value := stringify (default_value key);
          KeyRow.validation := stringify (validation key);
          KeyRow.created_by := KeyRow.created_by old;
          KeyRow.modified_by := userID;
          KeyRow.deleted_at := KeyRow.deleted_at old |}.

(** [k.id::bigint]: the id of the row that a key names, NULL for a key
    without an id; no answer when the [id] does not read as a bigint. *)
Definition named_row (E : Collaborators) (key : t) : option (option Z) :=
  to_bigint E (literal (id key)).

(** [UPDATE metatype_keys AS m SET ... FROM (VALUES ...) AS k WHERE
    k.id::bigint = m.id RETURNING m.*].  Each key is joined with the stored
    row that it names, if there is one; a key without an id (NULL) joins no
    row.  A stored row is rewritten once and returned once:
    of several keys that join the same row PostgreSQL uses one, here the
    first ([seen] are the ids of the rows rewritten so far).  The statement
    raises an error, and changes nothing, when an [id] does not read as a
    bigint or the new row of a joined key cannot be written. *)
Fixpoint update_rows (E : Collaborators) (userID : option string) (keys : list t)
    (seen : list Z) (tbl : table) : option (table * list t) :=
  match keys with
  | [] => Some (tbl, [])
  | key :: rest =>
      named ← named_row E key;
      match named with
      | None => update_rows E userID rest seen tbl
      | Some i =>
          match tbl !! i with
          | None => update_rows E userID rest seen tbl
          | Some old =>
              row ← updated_row E userID old key;
              if bool_decide (i ∈ seen) then update_rows E userID rest seen tbl
              else
                '(tbl', rows) ← update_rows E userID rest (i :: seen) (<[i := row]> tbl);
                Some (tbl', of_row i row :: rows)
          end
      end
  end.

Definition fullUpdateStatement (E : Collaborators) (userID : option string) (keys : list t)
    (tbl : table) : option (table * list t) :=
  update_rows E userID keys [] tbl.

(** [format(text, values)] on an empty list of keys leaves [VALUES] without
    a row, which the server rejects as a syntax error. *)
Definition with_values {A} (keys : list t) (effect : table -> option A) (tbl : table)
  : option A :=
  match keys with
  | [] => None
  | _ :: _ => effect tbl
  end.

Definition Create (E : Collaborators) (userID : option string) (key : t)
    (transaction : bool) (db : Database) : Result (option t) * Database :=
  Mapper.run E CreateStatement transaction
    (fun tbl => '(tbl', rows) ← createStatement E userID [key] tbl; Some (tbl', head rows)) db.

Definition BulkCreate (E : Collaborators) (userID : option string) (keys : list t)
    (transaction : bool) (db : Database) : Result (list t) * Database :=
  Mapper.run E BulkCreateStatement transaction
    (with_values keys (createStatement E userID keys)) db.

(** [SELECT * FROM metatype_keys WHERE id = $1]: the text of [$1] is read as
    a bigint. *)
Definition Retrieve (E : Collaborators) (i : string) (db : Database) : Result t :=
  Mapper.retrieve E RetrieveStatement
    (fun tbl => z ← bigint E i; Some (of_row z <$> tbl !! z)) db.

(** [SELECT * FROM get_metatype_keys($1::bigint) ORDER BY name] *)
Definition ListForMetatype (E : Collaborators) (metatypeID : string) (db : Database)
  : Result (list t) :=
  match db_error E ListStatement with
  | Some e => Failure_ e
  | None =>
      match bigint E metatypeID with
      | Some metatype => Success (get_metatype_keys E (committed db) metatype)
      | None => Failure_ Mapper.statement_error
      end
  end.

Definition Update (E : Collaborators) (userID : option string) (key : t)
    (transaction : bool) (db : Database) : Result (option t) * Database :=
  Mapper.run E UpdateStatement transaction
    (fun tbl => '(tbl', rows) ← fullUpdateStatement E userID [key] tbl; Some (tbl', head rows))
    db.

Definition BulkUpdate (E : Collaborators) (userID : option string) (keys : list t)
    (transaction : bool) (db : Database) : Result (list t) * Database :=
  Mapper.run E BulkUpdateStatement transaction
    (with_values keys (fullUpdateStatement E userID keys)) db.

(** [DELETE FROM metatype_keys WHERE id = $1]. *)
Definition Delete (E : Collaborators) (i : string) (db : Database)
  : Result bool * Database :=
  Mapper.run E DeleteStatement false
    (fun tbl => z ← bigint E i; Some (delete z tbl, true)) db.

(** [UPDATE metatype_keys SET deleted_at = NOW(), modified_at = NOW(),
    modified_by = $2 WHERE id = $1], and the same with [deleted_at = NULL]. *)
Definition archived_row (flag : bool) (userID : option string) (old : KeyRow.t) : KeyRow.t :=
  {| KeyRow.metatype_id := KeyRow.metatype_id old;
     KeyRow.container_id := KeyRow.container_id old;
     KeyRow.name := KeyRow.name old;
     KeyRow.description := KeyRow.description old;
     KeyRow.property_name := KeyRow.property_name old;
     KeyRow.required := KeyRow.required old;
     KeyRow.data_type := KeyRow.data_type old;
     KeyRow.options := KeyRow.options old;
     KeyRow.default_value := KeyRow.default_value old;
     KeyRow.validation := KeyRow.validation old;
     KeyRow.created_by := KeyRow.created_by old;
     KeyRow.modified_by := userID;
     KeyRow.deleted_at := flag |}.

Definition Archive (E : Collaborators) (i : string) (userID : option string)
    (db : Database) : Result bool * Database :=
  Mapper.run E ArchiveStatement false
    (fun tbl => z ← bigint E i; Some (alter (archived_row true userID) z tbl, true)) db.

Definition Unarchive (E : Collaborators) (i : string) (userID : option string)
    (db : Database) : Result bool * Database :=
  Mapper.run E UnarchiveStatement false
    (fun tbl => z ← bigint E i; Some (alter (archived_row false userID) z tbl, true)) db.

End MetatypeKeyMapper.

(** ** [MetatypeKeyRepository] ([metatype_key_repository.ts])

    The repository works on the database and on the cache singleton, which is
    the in-memory adapter unless the configuration asks for Redis. *)

Record World : Type := {
  db : Database;
  cache : store
}.

Module MetatypeKeyRepository.
Import MetatypeKey.

(** [`${MetatypeMapper.tableName}:${metatypeID}:keys`]; the template prints
    an id that is not there as [undefined]. *)
Definition keys_slot (E : Collaborators) (metatypeID : value) : string :=
  MetatypeMapper_tableName E ++ ":" ++ String_ metatypeID ++ ":keys".

Definition deleteCachedForMetatype (E : Collaborators) (metatypeID containerID : value)
    (c : store) : store * bool :=
  MemoryCacheImpl.del c (keys_slot E metatypeID).

Definition setCachedForMetatype (E : Collaborators) (metatypeID : string) (keys : list t)
    (c : store) : store * bool :=
  MemoryCacheImpl.set c (keys_slot E (VStr metatypeID)) (VStr (serialize E keys)).

Definition getCachedForMetatype (E : Collaborators) (metatypeID : string) (c : store)
  : option (list t) :=
  let cached := MemoryCacheImpl.get (JSON_parse E) c (keys_slot E (VStr metatypeID)) in
  if truthy cached then Some (plainToClass E cached) else None.

(** [this.#metatypeRepo.deleteCached(k.metatype_id!, k.container_id)] *)
Definition metatypeRepo_deleteCached (E : Collaborators) (k : t) (c : store) : store :=
  MetatypeRepository_deleteCached E (read (metatype_id k)) (read (container_id k)) c.

(** The two calls that clear the parent metatype's cache.  Neither is
    awaited; both only delete, and nothing else in the operation touches the
    cache, so that the order in which they complete does not show. *)
Definition clear_parent (E : Collaborators) (key : t) (c : store) : store :=
  fst (deleteCachedForMetatype E (read (metatype_id key)) (read (container_id key))
         (metatypeRepo_deleteCached E key c)).

Definition delete (E : Collaborators) (k : t) (w : World) : Result bool * World :=
  match has_id k with
  | Some i =>
      let c := metatypeRepo_deleteCached E k (cache w) in
      let '(r, d) := MetatypeKeyMapper.Delete E i (db w) in
      (r, {| db := d; cache := c |})
  | None => (Failure_ "key has no id", w)
  end.

Definition archive (E : Collaborators) (user : User) (k : t) (w : World)
  : Result bool * World :=
  match has_id k with
  | Some i =>
      let c := metatypeRepo_deleteCached E k (cache w) in
      let '(r, d) := MetatypeKeyMapper.Archive E i (user_id user) (db w) in
      (r, {| db := d; cache := c |})
  | None => (Failure_ "key has no id", w)
  end.

Definition unarchive (E : Collaborators) (user : User) (k : t) (w : World)
  : Result bool * World :=
  match has_id k with
  | Some i =>
      let c := metatypeRepo_deleteCached E k (cache w) in
      let '(r, d) := MetatypeKeyMapper.Unarchive E i (user_id user) (db w) in
      (r, {| db := d; cache := c |})
  | None => (Failure_ "key has no id", w)
  end.

Definition findByID (E : Collaborators) (i : string) (w : World) : Result t :=
  MetatypeKeyMapper.Retrieve E i (db w).

(** [Object.assign(m, r.value)] where [r.value] may be undefined. *)
Definition assign_opt (m : t) (r : option t) : t :=
  match r with
  | Some row => assign m row
  | None => m
  end.

(** [save(m, user)]: the result, the key object as [save] leaves it, and
    the new state. *)
Definition save (E : Collaborators) (m : t) (user : User) (w : World)
  : Result bool * t * World :=
  match validationErrors E m with
  | Some errors =>
      (Failure_ ("key does not pass validation " ++ String.concat "," errors), m, w)
  | None =>
      let c := clear_parent E m (cache w) in
      match has_id m with
      | Some i =>
          match findByID E i w with
          | Failure e _ =>
              (Failure_ ("unable to fetch original for update " ++ e), m,
               {| db := db w; cache := c |})
          | Success original =>
              let merged := assign original m in
              match MetatypeKeyMapper.Update E (user_id user) merged false (db w) with
              | (Failure e code, d) => (Failure e code, m, {| db := d; cache := c |})
              | (Success updated, d) =>
                  (Success true, assign_opt m updated, {| db := d; cache := c |})
              end
          end
      | None =>
          match MetatypeKeyMapper.Create E (user_id user) m false (db w) with
          | (Failure e code, d) => (Failure e code, m, {| db := d; cache := c |})
          | (Success created, d) =>
              (Success true, assign_opt m created, {| db := d; cache := c |})
          end
      end
  end.

(** The loop of [bulkSave]: validate each key, clear its parent's cache and
    sort it into [toUpdate] or [toCreate]; the first key that fails
    validation ends the loop with its errors. *)
Fixpoint sort_keys (E : Collaborators) (k : list t) (toCreate toUpdate : list t) (c : store)
  : (list string * store) + (list t * list t * store) :=
  match k with
  | [] => inr (toCreate, toUpdate, c)
  | key :: rest =>
      match validationErrors E key with
      | Some errors => inl (errors, c)
      | None =>
          let c' := clear_parent E key c in
          match has_id key with
          | Some _ => sort_keys E rest toCreate (toUpdate ++ [key]) c'
          | None => sort_keys E rest (toCreate ++ [key]) toUpdate c'
          end
      end
  end.

(** [toReturn.forEach((result, i) => Object.assign(k[i], result))] *)
Fixpoint assign_results (k toReturn : list t) : list t :=
  match k, toReturn with
  | key :: k', result :: rest => assign key result :: assign_results k' rest
  | _, _ => k
  end.

(** [bulkSave(user, k)]: the result, the key objects as [bulkSave] leaves
    them, and the new state. *)
Definition bulkSave (E : Collaborators) (user : User) (k : list t) (w : World)
  : Result bool * list t * World :=
  match sort_keys E k [] [] (cache w) with
  | inl (errors, c) =>
      (Failure_ ("some keys do not pass validation " ++ String.concat "," errors), k,
       {| db := db w; cache := c |})
  | inr (toCreate, toUpdate, c) =>
      match Mapper.startTransaction E (db w) with
      | (Failure _ _, d) =>
          (Failure_ "unable to initiate db transaction", k, {| db := d; cache := c |})
      | (Success _, d0) =>
          let updated :=
            match toUpdate with
            | [] => (Success [], d0)
            | _ :: _ => MetatypeKeyMapper.BulkUpdate E (user_id user) toUpdate true d0
            end in
          match updated with
          | (Failure e code, d1) =>
              let d := snd (Mapper.rollbackTransaction E d1) in
              (Failure e code, k, {| db := d; cache := c |})
          | (Success updatedRows, d1) =>
              let created :=
                match toCreate with
                | [] => (Success [], d1)
                | _ :: _ => MetatypeKeyMapper.BulkCreate E (user_id user) toCreate true d1
                end in
              match created with
              | (Failure e code, d2) =>
                  let d := snd (Mapper.rollbackTransaction E d2) in
                  (Failure e code, k, {| db := d; cache := c |})
              | (Success createdRows, d2) =>
                  match Mapper.completeTransaction E d2 with
                  | (Failure e _, d3) =>
                      let d := snd (Mapper.rollbackTransaction E d3) in
                      (Failure_ ("unable to commit changes to database " ++ e), k,
                       {| db := d; cache := c |})
                  | (Success _, d3) =>
                      (Success true, assign_results k (updatedRows ++ createdRows),
                       {| db := d3; cache := c |})
                  end
              end
          end
      end
  end.

(** [listForMetatype(metatypeID)] *)
Definition listForMetatype (E : Collaborators) (metatypeID : string) (w : World)
  : Result (list t) * World :=
  match getCachedForMetatype E metatypeID (cache w) with
  | Some cached => (Success cached, w)
  | None =>
      match MetatypeKeyMapper.ListForMetatype E metatypeID (db w) with
      | Failure e code => (Failure e code, w)
      | Success keys =>
          (Success keys,
           {| db := db w;
              cache := fst (setCachedForMetatype E metatypeID keys (cache w)) |})
      end
  end.

End MetatypeKeyRepository.

(** ** The data source routes ([data_source_routes.ts]) *)

(** [toLowerCase] on the ASCII letters; no other character lowers to a
    letter of ["true"]. *)
Definition lower_ascii (a : ascii) : ascii :=
  let n := nat_of_ascii a in
  if (65 <=? n)%nat && (n <=? 90)%nat then ascii_of_nat (n + 32) else a.

Fixpoint toLowerCase (s : string) : string :=
  match s with
  | EmptyString => EmptyString
  | String a rest => String (lower_ascii a) (toLowerCase rest)
  end.

(** [String(req.query.flag).toLowerCase() === 'true'] *)
Definition query_flag (v : value) : bool :=
  String.eqb (toLowerCase (String_ v)) "true".

Module DataSourceRoutes.

Section with_data_source.
(** The data source the middleware attached to the request, if any. *)
Variable DataSource : Type.

Record Request : Type := {
  dataSource : option DataSource;
  currentUser : User;
  query : string -> value
}.

(** What a handler does with the request: a call into the data source
    repository, whose result becomes the response, or a response of its
    own. *)
Inductive Handled : Type :=
| repo_archive (user : User) (source : DataSource)
| repo_delete (source : DataSource) (force removeData : bool)
| respond (r : Result unit).

Definition deleteDataSource (req : Request) : Handled :=
  match dataSource req with
  | Some source =>
      if query_flag (query req "archive") then
        repo_archive (currentUser req) source
      else
        repo_delete source
          (query_flag (query req "forceDelete"))
          (query_flag (query req "removeData"))
  | None => respond (Failure "unable to find data source" 404)
  end.
End with_data_source.

End DataSourceRoutes.

(** ** The [Import] record ([domain_objects/.../import.ts]) *)

Module ImportRecord.

Inductive Status : Type := ready | processing | error | stopped | completed.

Definition status_name (s : Status) : string :=
  match s with
  | ready => "ready"
  | processing => "processing"
  | error => "error"
  | stopped => "stopped"
  | completed => "completed"
  end.

Record t : Type := {
  id : option string;
  data_source_id : option string;
  status_message : option string;
  status : Status;
  reference : option string;
  total_records : option Z;
  records_inserted : option Z;
  total_errors : option Z
}.

Record Input : Type := {
  input_data_source_id : string;
  input_status_message : option string;
  input_reference : option string
}.

(** [if (input.field) this.field = input.field]: an empty string is not
    copied. *)
Definition if_truthy (s : option string) : option string :=
  match s with
  | Some x => if String.eqb x "" then None else Some x
  | None => None
  end.

(** [new Import(input)] *)
Definition new (input : option Input) : t :=
  {| id := None;
     data_source_id := input_data_source_id <$> input;
     status_message := input ≫= (fun i => if_truthy (input_status_message i));
     status := ready;
     reference := input ≫= (fun i => if_truthy (input_reference i));
     total_records := None;
     records_inserted := None;
     total_errors := None |}.

End ImportRecord.

(** ** Time-series data sources

    The column and configuration types are those of [api/types.ts]; the test
    suite [timeseries_data_source_impl.spec.ts] saves such sources through
    the data source repository. *)

Module Timeseries.

Record TimeseriesColumn : Type := {
  column_name : option string;
  property_name : option string;
  is_primary_timestamp : bool;
  unique : bool;
  type : option string;
  date_conversion_format_string : option string
}.

Record TimeseriesDataSourceConfig : Type := {
  columns : list TimeseriesColumn;
  chunk_interval : option string
}.

Record DataSourceRecord : Type := {
  id : option string;
  container_id : string;
  name : string;
  active : bool;
  adapter_type : string;
  config : TimeseriesDataSourceConfig
}.

(** Modelled from the spec: the storage behind [DataSourceRepository] is not
    part of the sources at hand.  After sections 3 and 4.5 a save can touch
    the data source records and the time-partitioned tables (one per saved
    source, with its columns). *)
Record Storage : Type := {
  data_sources : list DataSourceRecord;
  hypertables : list (string * list TimeseriesColumn)
}.

Definition primary_timestamps (c : TimeseriesDataSourceConfig) : list TimeseriesColumn :=
  List.filter is_primary_timestamp (columns c).

Definition is_date (col : TimeseriesColumn) : bool :=
  match type col with
  | Some ty => String.eqb ty "date"
  | None => false
  end.

(** Modelled from the spec: the validator of the time-series configuration
    is not part of the sources at hand.  After section 4.5: exactly one
    column is marked [is_primary_timestamp], and a primary timestamp that
    is not a date needs a configured chunking interval.  The answer is the
    validation error, if any. *)
Definition validationErrors (c : TimeseriesDataSourceConfig) : option string :=
  match primary_timestamps c with
  | [col] =>
      if is_date col then None
      else match chunk_interval c with
           | Some _ => None
           | None => Some "a primary timestamp that is not a date requires a chunk interval"
           end
  | _ => Some "exactly one column must be the primary timestamp"
  end.

(** Modelled from the spec: [DataSourceRepository.save] is not part of the
    sources at hand.  After sections 4.5 and 7(a): a configuration that
    fails validation is rejected before anything is written; a valid one
    is stored under a new id together with its time-partitioned table. *)
Definition save (source : DataSourceRecord) (st : Storage)
  : Result bool * DataSourceRecord * Storage :=
  match validationErrors (config source) with
  | Some e => (Failure_ e, source, st)
  | None =>
      let new_id := pretty (N.of_nat (S (length (data_sources st)))) in
      let saved :=
        {| id := Some new_id;
           container_id := container_id source;
           name := name source;
           active := active source;
           adapter_type := adapter_type source;
           config := config source |} in
      (Success true, saved,
       {| data_sources := data_sources st ++ [saved];
          hypertables := hypertables st ++ [(new_id, columns (config source))] |})
  end.

(** The configuration with a chunking interval set and nothing else
    changed. *)
Definition with_chunk_interval (interval : string) (source : DataSourceRecord)
  : DataSourceRecord :=
  {| id := id source;
     container_id := container_id source;
     name := name source;
     active := active source;
     adapter_type := adapter_type source;
     config := {| columns := columns (config source);
                  chunk_interval := Some interval |} |}.

End Timeseries.

(** ** Shape fingerprinting

    The type mapping and the staged record carry a [shape_hash]
    ([api/types.ts], [import.ts]). *)

Module Fingerprint.

(** The shape of a payload: what is left when the values are dropped. *)
#[warnings="-register-all"]
Inductive shape : Type :=
| ShScalar
| ShArray (first : option shape)
| ShObject (fields : list (string * shape)).

(** First binding of a key in a list of fields. *)
Fixpoint field {A} (k : string) (l : list (string * A)) : option A :=
  match l with
  | [] => None
  | (k', a) :: rest => if String.eqb k k' then Some a else field k rest
  end.

(** Put a field into a list that is sorted by key; the new binding replaces
    one of the same key. *)
Fixpoint put {A} (k : string) (a : A) (l : list (string * A)) : list (string * A) :=
  match l with
  | [] => [(k, a)]
  | (k', a') :: rest =>
      match String.compare k k' with
      | Lt => (k, a) :: (k', a') :: rest
      | Eq => (k, a) :: rest
      | Gt => (k', a') :: put k a rest
      end
  end.

(** One field comes before another in key order. *)
Definition key_lt {A} (x y : string * A) : Prop := String.compare (fst x) (fst y) = Lt.

(** The fields in key order, whatever order they came in. *)
Fixpoint canonical {A} (l : list (string * A)) : list (string * A) :=
  match l with
  | [] => []
  | (k, a) :: rest => put k a (canonical rest)
  end.

(** Modelled from the spec: the fingerprinting function is not part of the
    sources at hand.  After section 4.1: the shape keeps key names, nesting
    and the array-versus-object distinction, drops the values, takes an
    array by the shape of its first element and does not depend on the
    order of the keys of an object. *)
Fixpoint shape_of (v : value) : shape :=
  match v with
  | VArr items =>
      ShArray (match items with
               | [] => None
               | x :: _ => Some (shape_of x)
               end)
  | VObj fields =>
      ShObject (canonical (List.map (fun kv => (fst kv, shape_of (snd kv))) fields))
  | _ => ShScalar
  end.

(** The text that is hashed. *)
Fixpoint render (s : shape) : string :=
  match s with
  | ShScalar => "*"
  | ShArray None => "[]"
  | ShArray (Some x) => "[" ++ render x ++ "]"
  | ShObject fields =>
      "{" ++ String.concat ","
               (List.map (fun kv => fst kv ++ ":" ++ render (snd kv)) fields) ++ "}"
  end.

(** Modelled from the spec: the fingerprint is a fixed-length hash of the
    shape; the hash function itself is left open. *)
Definition fingerprint (hash : string -> string) (payload : value) : string :=
  hash (render (shape_of payload)).

Definition is_scalar (v : value) : bool :=
  match v with
  | VArr _ | VObj _ => false
  | _ => true
  end.

(** Two payloads have the same key structure: scalars match scalars,
    arrays match arrays whose sampled elements match, and objects match
    objects with the same key names whose values match key by key. *)
Fixpoint same_structure (a b : value) {struct a} : bool :=
  match a with
  | VArr xs =>
      match b with
      | VArr ys =>
          match xs, ys with
          | [], [] => true
          | x :: _, y :: _ => same_structure x y
          | _, _ => false
          end
      | _ => false
      end
  | VObj fa =>
      match b with
      | VObj fb =>
          forallb (fun kv => match field (fst kv) fb with
                             | Some y => same_structure (snd kv) y
                             | None => false
                             end) fa
          && forallb (fun kv => match field (fst kv) fa with
                                | Some _ => true
                                | None => false
                                end) fb
      | _ => false
      end
  | _ => is_scalar b
  end.

End Fingerprint.

(** ** The metatype repository's cache helper *)

Module MetatypeRepository.

(** [`${MetatypeMapper.tableName}:${id}`], the slot of the metatype itself. *)
Definition metatype_slot (E : Collaborators) (i : value) : string :=
  MetatypeMapper_tableName E ++ ":" ++ String_ i.

(** Modelled from the spec: [MetatypeRepository.deleteCached(id,
    containerID)] is not part of the sources at hand.  After section 6 (the
    cache is invalidated on ontology mutation) the helper, called with the
    id of a metatype, removes what the cache holds for that metatype, its
    own entry and its key list; whatever it is called with, it adds
    nothing. *)
Definition deleteCached_clears (E : Collaborators) : Prop :=
  (forall (i containerID : value) (c : store) (slot : string),
      c !! slot = None -> MetatypeRepository_deleteCached E i containerID c !! slot = None)
  /\ (forall (metatypeID : string) (containerID : value) (c : store),
         MetatypeRepository_deleteCached E (VStr metatypeID) containerID c
           !! metatype_slot E (VStr metatypeID) = None
         /\ MetatypeRepository_deleteCached E (VStr metatypeID) containerID c
              !! MetatypeKeyRepository.keys_slot E (VStr metatypeID) = None).

(** The helper that does just that for the table name [tableName]. *)
Definition deleteCached (tableName : string) (i containerID : value) (c : store)
  : store :=
  delete (tableName ++ ":" ++ String_ i ++ ":keys")
    (delete (tableName ++ ":" ++ String_ i) c).

End MetatypeRepository.

(** The keys that [bulkSave] sends to [BulkUpdate] and to [BulkCreate]. *)
Definition keys_to_update (k : list MetatypeKey.t) : list MetatypeKey.t :=
  List.filter (fun key => bool_decide (is_Some (MetatypeKey.has_id key))) k.

Definition keys_to_create (k : list MetatypeKey.t) : list MetatypeKey.t :=
  List.filter (fun key => negb (bool_decide (is_Some (MetatypeKey.has_id key)))) k.

(** The error, if any, of a statement that is only sent for a list that is
    not empty. *)
Definition error_unless_empty (E : Collaborators) (keys : list MetatypeKey.t)
    (stmt : Statement) : option string :=
  match keys with
  | [] => None
  | _ :: _ => db_error E stmt
  end.

(** A cached key list is stale when it is not the text of the keys that the
    database lists for the metatype. *)
Definition stale (E : Collaborators) (w : World) (metatypeID : string) : Prop :=
  exists v keys,
    cache w !! MetatypeKeyRepository.keys_slot E (VStr metatypeID) = Some v
    /\ MetatypeKeyMapper.ListForMetatype E metatypeID (db w) = Success keys
    /\ v <> VStr (serialize E keys).

(** Two rows agree on the columns that describe a key. *)
Definition same_columns (a b : KeyRow.t) : Prop :=
  KeyRow.metatype_id a = KeyRow.metatype_id b
  /\ KeyRow.container_id a = KeyRow.container_id b
  /\ KeyRow.name a = KeyRow.name b
  /\ KeyRow.description a = KeyRow.description b
  /\ KeyRow.property_name a = KeyRow.property_name b
  /\ KeyRow.required a = KeyRow.required b
  /\ KeyRow.data_type a = KeyRow.data_type b
  /\ KeyRow.options a = KeyRow.options b
  /\ KeyRow.default_value a = KeyRow.default_value b
  /\ KeyRow.validation a = KeyRow.validation b.

(** A key is persisted in a table when a row holds the columns that the
    statements write for it, under the key's id when it has one. *)
Definition persisted (E : Collaborators) (tbl : table) (key : MetatypeKey.t) : Prop :=
  exists i row written,
    tbl !! i = Some row
    /\ MetatypeKeyMapper.created_row E None key = Some written
    /\ same_columns row written
    /\ (forall j, MetatypeKey.has_id key = Some j -> bigint E j = Some i).

(** Of the keys of a list, [key] alone names the row [i]. *)
Definition names_alone (E : Collaborators) (k : list MetatypeKey.t) (key : MetatypeKey.t)
    (i : Z) : Prop :=
  forall other j,
    In other k -> MetatypeKey.has_id other = Some j -> bigint E j = Some i -> other = key.

(** ** Sample inputs

    Requests, sources and collaborators on which the properties below are
    exercised. *)

Definition delete_request (archive removeData : value) (source : option string)
  : DataSourceRoutes.Request string :=
  {| DataSourceRoutes.dataSource := source;
     DataSourceRoutes.currentUser := {| user_id := Some "1" |};
     DataSourceRoutes.query := fun name =>
       if String.eqb name "archive" then archive
       else if String.eqb name "removeData" then removeData
       else VUndefined |}.

(** The sources that [timeseries_data_source_impl.spec.ts] saves. *)
Definition test_column (column property : string) (primary : bool) (ty : string)
  : Timeseries.TimeseriesColumn :=
  {| Timeseries.column_name := Some column;
     Timeseries.property_name := Some property;
     Timeseries.is_primary_timestamp := primary;
     Timeseries.unique := false;
     Timeseries.type := Some ty;
     Timeseries.date_conversion_format_string := None |}.

Definition test_source (cols : list Timeseries.TimeseriesColumn) (interval : option string)
  : Timeseries.DataSourceRecord :=
  {| Timeseries.id := None;
     Timeseries.container_id := "1";
     Timeseries.name := "Test Data Source";
     Timeseries.active := false;
     Timeseries.adapter_type := "timeseries";
     Timeseries.config := {| Timeseries.columns := cols;
                             Timeseries.chunk_interval := interval |} |}.

Definition temperature := test_column "temperature" "Temperature (K)" false "number".

Definition no_storage : Timeseries.Storage :=
  {| Timeseries.data_sources := []; Timeseries.hypertables := [] |}.

Definition saves (source : Timeseries.DataSourceRecord) : bool :=
  negb (isError (fst (fst (Timeseries.save source no_storage)))).

(** A key object as a caller builds it, with the optional columns left
    out, and a stored row. *)
Definition sample_key (i : property string) (metatype name : string) : MetatypeKey.t :=
  {| MetatypeKey.id := i;
     MetatypeKey.metatype_id := Val metatype;
     MetatypeKey.container_id := Val "1";
     MetatypeKey.name := name;
     MetatypeKey.description := "";
     MetatypeKey.property_name := name;
     MetatypeKey.required := false;
     MetatypeKey.data_type := "string";
     MetatypeKey.options := Absent;
     MetatypeKey.default_value := Absent;
     MetatypeKey.validation := Absent;
     MetatypeKey.created_by := Absent;
     MetatypeKey.modified_by := Absent;
     MetatypeKey.deleted_at := Absent |}.

Definition sample_row (metatype : Z) (name : string) : KeyRow.t :=
  {| KeyRow.metatype_id := Some metatype;
     KeyRow.container_id := Some 1%Z;
     KeyRow.name := name;
     KeyRow.description := "";
     KeyRow.property_name := name;
     KeyRow.required := false;
     KeyRow.data_type := "string";
     KeyRow.options := None;
     KeyRow.default_value := None;
     KeyRow.validation := None;
     KeyRow.created_by := None;
     KeyRow.modified_by := None;
     KeyRow.deleted_at := false |}.

(** A reader of bigints after the one of PostgreSQL: blanks, an optional
    sign, decimal digits (leading zeros allowed) and blanks, for a number of
    64 bits; every other text is rejected. *)
Definition digit (a : ascii) : option Z :=
  let n := nat_of_ascii a in
  if (48 <=? n)%nat && (n <=? 57)%nat then Some (Z.of_nat (n - 48)) else None.

Definition is_space (a : ascii) : bool :=
  let n := nat_of_ascii a in
  (n =? 32)%nat || ((9 <=? n)%nat && (n <=? 13)%nat).

Fixpoint skip_spaces (s : string) : string :=
  match s with
  | EmptyString => EmptyString
  | String a rest => if is_space a then skip_spaces rest else s
  end.

Fixpoint digits (acc : Z) (some : bool) (s : string) : option Z :=
  match s with
  | EmptyString => if some then Some acc else None
  | String a rest =>
      match digit a with
      | Some d => digits (acc * 10 + d) true rest
      | None =>
          if some && String.eqb (skip_spaces s) EmptyString then Some acc else None
      end
  end.

Definition decimal (s : string) : option Z :=
  let unsigned (sign : Z) (text : string) :=
    z ← digits 0 false text;
    let signed := (sign * z)%Z in
    if ((- 2 ^ 63 <=? signed) && (signed <? 2 ^ 63))%Z then Some signed else None in
  match skip_spaces s with
  | String "-" rest => unsigned (-1)%Z rest
  | String "+" rest => unsigned 1%Z rest
  | text => unsigned 1%Z text
  end.

(** Stand-ins for the collaborators: a validator that asks for a name, a
    database that rejects nothing, reads decimal numerals and lists a
    metatype's own keys, a serializer that writes the names, and a parser
    that takes no text for JSON. *)
Definition sample_collaborators : Collaborators :=
  {| validationErrors := fun k =>
       if String.eqb (MetatypeKey.name k) "" then Some ["name should not be empty"] else None;
     JSON_parse := fun _ => None;
     serialize := fun ks => "[" ++ String.concat "," (List.map MetatypeKey.name ks) ++ "]";
     plainToClass := fun v =>
       match v with
       | VStr s => [sample_key Absent "" s]
       | _ => []
       end;
     db_error := fun _ => None;
     bigint := decimal;
     get_metatype_keys := fun tbl metatype =>
       List.map (fun entry => MetatypeKeyMapper.of_row (fst entry) (snd entry))
         (List.filter
            (fun entry => bool_decide (KeyRow.metatype_id (snd entry) = Some metatype))
            (map_to_list tbl));
     MetatypeMapper_tableName := "metatypes";
     MetatypeRepository_deleteCached := MetatypeRepository.deleteCached "metatypes" |}.

Definition sample_user : User := {| user_id := Some "42" |}.

Definition empty_world : World :=
  {| db := {| committed := ∅; in_flight := None |}; cache := ∅ |}.

(** One key, named [a], stored under id [1] for metatype [10], with the key
    list of [10] in the cache. *)
Definition world_with_key : World :=
  {| db := {| committed := {[ 1%Z := sample_row 10 "a" ]}; in_flight := None |};
     cache := {[ "metatypes:10:keys" := VStr "[a]" ]} |}.

(** The key object that the mapper hands back for that row. *)
Definition stored_key : MetatypeKey.t := MetatypeKeyMapper.of_row 1 (sample_row 10 "a").

(** Collaborators whose database loses the connection at commit. *)
Definition commit_fails : Collaborators :=
  {| validationErrors := validationErrors sample_collaborators;
     JSON_parse := JSON_parse sample_collaborators;
     serialize := serialize sample_collaborators;
     plainToClass := plainToClass sample_collaborators;
     db_error := fun stmt =>
       match stmt with
       | CompleteTransaction => Some "connection lost"
       | _ => None
       end;
     bigint := decimal;
     get_metatype_keys := get_metatype_keys sample_collaborators;
     MetatypeMapper_tableName := "metatypes";
     MetatypeRepository_deleteCached := MetatypeRepository.deleteCached "metatypes" |}.

(** Two payloads of one shape: other values, other key order, another number
    of readings. *)
Definition pump_payload : value :=
  VObj [("name", VStr "pump");
        ("readings", VArr [VObj [("t", VNum 1); ("v", VNum 20)]]);
        ("site", VObj [("id", VNum 7)])].

Definition valve_payload : value :=
  VObj [("site", VObj [("id", VNum 9)]);
        ("readings", VArr [VObj [("v", VNum 3); ("t", VNum 2)];
                           VObj [("v", VNum 4); ("t", VNum 3)]]);
        ("name", VNull)].

(** ** The Redis cache ([RedisCacheImpl] in [services/cache/cache.ts])

    The server keeps a text per key and answers as Redis does: [OK] to [SET]
    and [FLUSHALL], the number of removed keys to [DEL], [null] to [GET] of a
    key it does not hold.  Expiry is outside the model, as for the in-memory
    cache. *)

Module RedisCacheImpl.

Abbreviation server := (gmap string string).

Section with_json.
(** [JSON.parse] on a text and [JSON.stringify]. *)
Variable JSON_parse : value -> option value.
Variable JSON_stringify : value -> string.

(** [get(key)]: [null] resolves to [undefined]; a text resolves to its parse,
    or to itself when parsing throws. *)
Definition get (r : server) (key : string) : value :=
  match r !! key with
  | None => VUndefined
  | Some val =>
      match JSON_parse (VStr val) with
      | Some parsed => parsed
      | None => VStr val
      end
  end.

(** [set(key, val, ttl)]: the stringified value is stored, with or without
    expiry; the reply [OK] makes the answer [true]. *)
Definition set (r : server) (key : string) (val : value) : server * bool :=
  (<[key := JSON_stringify val]> r, true).
End with_json.

(** [del(key)]: the reply is 1 for a key that was there and 0 otherwise;
    both make the answer [true]. *)
Definition del (r : server) (key : string) : server * bool :=
  let deleted := match r !! key with Some _ => 1%Z | None => 0%Z end in
  (delete key r, negb (negb (deleted =? 1)%Z && negb (deleted =? 0)%Z)).

(** [flush()]. *)
Definition flush (r : server) : server * bool := (∅, true).

End RedisCacheImpl.

(** ** The other handlers of [data_source_routes.ts] *)

Module DataSourceHandlers.

(** Modelled from the spec: the [DataSourceRecord] class is not part of the
    sources at hand.  After section 3 a data source has an identity, an
    adapter kind, an active flag, an archived flag and an adapter-specific
    configuration; the fields are those of [DataSourceT] in [api/types.ts]. *)
Record DataSourceRecord (Config : Type) : Type := {
  id : option string;
  container_id : option string;
  name : string;
  adapter_type : option string;
  active : bool;
  archived : option bool;
  config : option Config
}.

Arguments id {Config} _.
Arguments container_id {Config} _.
Arguments name {Config} _.
Arguments adapter_type {Config} _.
Arguments active {Config} _.
Arguments archived {Config} _.
Arguments config {Config} _.

(** [record.container_id = containerID] *)
Definition set_container_id {Config} (record : DataSourceRecord Config)
    (containerID : option string) : DataSourceRecord Config :=
  {| id := id record;
     container_id := containerID;
     name := name record;
     adapter_type := adapter_type record;
     active := active record;
     archived := archived record;
     config := config record |}.

(** The options that [listDataSources] hands to [list]. *)
Record QueryOptions : Type := {
  limit : option value;
  offset : option value;
  sortBy : value;
  sortDesc : option bool
}.

Section with_adapters.
Variable Config : Type.
(** A data source adapter, the record it carries ([dataSource.DataSourceRecord])
    and the factory that picks the adapter for a record. *)
Variable DataSource : Type.
Variable DataSourceRecord_of : DataSource -> option (DataSourceRecord Config).
Variable fromDataSourceRecord : DataSourceRecord Config -> option DataSource.
(** The unary [+] of JavaScript. *)
Variable ToNumber : value -> value.

(** The request as the middleware leaves it: the container and the data
    source of the route, when they were found. *)
Record Request : Type := {
  container : option (option string);
  dataSource : option DataSource;
  currentUser : User;
  query : string -> value;
  body : DataSourceRecord Config
}.

(** What a handler does with the request: a call into a repository, whose
    result becomes the response, a response of its own, nothing, or a
    [TypeError] that it throws when it reads a property of [undefined]. *)
Inductive Outcome : Type :=
| repo_save (source : DataSource) (user : User)
| repo_setActive (source : DataSource) (user : User)
| repo_setInactive (source : DataSource) (user : User)
| repo_reprocess (dataSourceID : option string)
| staging_count (dataSourceID : option string)
| repo_count (containerID : option string)
| repo_list (containerID : option string) (timeseries archived : bool) (options : QueryOptions)
| respond_record (record : option (DataSourceRecord Config))
| respond_failure (error : string) (errorCode : nat)
| no_response
| throws_TypeError.

Definition not_found : Outcome := respond_failure "unable to find data source" 404.

Definition createDataSource (req : Request) : Outcome :=
  match container req with
  | Some containerID =>
      let payload := set_container_id (body req) containerID in
      match fromDataSourceRecord payload with
      | None => respond_failure "unknown data source adapter type" 500
      | Some source => repo_save source (currentUser req)
      end
  | None => respond_failure "unable to find container" 500
  end.

(** [req.dataSource.DataSourceRecord?.id] *)
Definition dataCount (req : Request) : Outcome :=
  match dataSource req with
  | Some source => staging_count (DataSourceRecord_of source ≫= id)
  | None => not_found
  end.

Definition retrieveDataSource (req : Request) : Outcome :=
  match dataSource req with
  | Some source => respond_record (DataSourceRecord_of source)
  | None => not_found
  end.

Definition setActive (req : Request) : Outcome :=
  match dataSource req with
  | Some source => repo_setActive source (currentUser req)
  | None => not_found
  end.

Definition setInactive (req : Request) : Outcome :=
  match dataSource req with
  | Some source => repo_setInactive source (currentUser req)
  | None => not_found
  end.

(** [req.dataSource.DataSourceRecord!.id!]: the id is read off the record
    without a check, which throws for an adapter that carries none. *)
Definition reprocessDataSource (req : Request) : Outcome :=
  match dataSource req with
  | Some source =>
      match DataSourceRecord_of source with
      | Some record => repo_reprocess (id record)
      | None => throws_TypeError
      end
  | None => not_found
  end.

(** [q ? +q : undefined] *)
Definition number_if_given (q : value) : option value :=
  if truthy q then Some (ToNumber q) else None.

(** [req.container!.id!] is read before anything else, which throws when the
    request has no container. *)
Definition listDataSources (req : Request) : Outcome :=
  match container req with
  | None => throws_TypeError
  | Some containerID =>
      match query req "count" with
      | VUndefined =>
          repo_list containerID
            (query_flag (query req "timeseries"))
            (query_flag (query req "archived"))
            {| limit := number_if_given (query req "limit");
               offset := number_if_given (query req "offset");
               sortBy := query req "sortBy";
               sortDesc := if truthy (query req "sortDesc")
                           then Some (query_flag (query req "sortDesc")) else None |}
      | count => if query_flag count then repo_count containerID else no_response
      end
  end.
End with_adapters.

End DataSourceHandlers.

(** ** Staged data ([DataStaging] in [domain_objects/.../import.ts]) *)

Module DataStaging.

Section with_config.
(** The adapter configuration attached to a staged record, and the one a new
    record starts with ([new StandardDataSourceConfig()]). *)
Variable Config : Type.
Variable StandardDataSourceConfig : Config.

Record t : Type := {
  id : option string;
  data_source_id : option string;
  import_id : option string;
  shape_hash : option string;
  errors : list string;
  data : value;
  created_at : option string;
  inserted_at : option string;
  container_id : option string;
  data_source_config : option Config
}.

Record Input : Type := {
  input_data_source_id : string;
  input_import_id : string;
  input_data : value;
  input_shape_hash : option string
}.

(** [new DataStaging(input)] *)
Definition new (input : option Input) : t :=
  {| id := None;
     data_source_id := input_data_source_id <$> input;
     import_id := input_import_id <$> input;
     shape_hash := input ≫= (fun i => ImportRecord.if_truthy (input_shape_hash i));
     errors := [];
     data := from_option input_data VUndefined input;
     created_at := None;
     inserted_at := None;
     container_id := None;
     data_source_config := Some StandardDataSourceConfig |}.
End with_config.

End DataStaging.

(** What the in-memory cache hands back for the text of a key list converts
    to that key list: [serialize], [JSON.parse] and [plainToClass] agree on
    it. *)
Definition reads_back (E : Collaborators) (keys : list MetatypeKey.t) : Prop :=
  let text := VStr (serialize E keys) in
  let cached := match JSON_parse E text with Some parsed => parsed | None => text end in
  truthy text = true /\ truthy cached = true /\ plainToClass E cached = keys.

(** [JSON.stringify] and [JSON.parse] on the literals [null], [true],
    [false] and the integers, as far as the samples need them: every integer
    is written, and of the numerals only [0] is read. *)
Definition literal_stringify (v : value) : string :=
  match v with
  | VNull => "null"
  | VBool true => "true"
  | VBool false => "false"
  | VNum z => pretty z
  | _ => "{}"
  end.

Definition literal_parse (v : value) : option value :=
  match v with
  | VStr s =>
      if String.eqb s "null" then Some VNull
      else if String.eqb s "true" then Some (VBool true)
      else if String.eqb s "false" then Some (VBool false)
      else if String.eqb s "0" then Some (VNum 0)
      else None
  | _ => None
  end.

(** The sample collaborators with a [plainToClass] that knows the key list of
    the sample world. *)
Definition reading_collaborators : Collaborators :=
  {| validationErrors := validationErrors sample_collaborators;
     JSON_parse := JSON_parse sample_collaborators;
     serialize := serialize sample_collaborators;
     plainToClass := fun v =>
       match v with
       | VStr s => if String.eqb s "[a]" then [stored_key] else []
       | _ => []
       end;
     db_error := db_error sample_collaborators;
     bigint := decimal;
     get_metatype_keys := get_metatype_keys sample_collaborators;
     MetatypeMapper_tableName := "metatypes";
     MetatypeRepository_deleteCached := MetatypeRepository.deleteCached "metatypes" |}.

(** Collaborators whose database is down: every statement is rejected. *)
Definition database_down : Collaborators :=
  {| validationErrors := validationErrors sample_collaborators;
     JSON_parse := JSON_parse sample_collaborators;
     serialize := serialize sample_collaborators;
     plainToClass := plainToClass reading_collaborators;
     db_error := fun _ => Some "connection refused";
     bigint := decimal;
     get_metatype_keys := get_metatype_keys sample_collaborators;
     MetatypeMapper_tableName := "metatypes";
     MetatypeRepository_deleteCached := MetatypeRepository.deleteCached "metatypes" |}.

(** A request for the handlers of a data source route, with a factory that
    knows the standard adapter only, and adapters that carry a record or
    none. *)
Definition sample_record (containerID : option string) (adapter : string)
  : DataSourceHandlers.DataSourceRecord unit :=
  {| DataSourceHandlers.id := None;
     DataSourceHandlers.container_id := containerID;
     DataSourceHandlers.name := "Test Data Source";
     DataSourceHandlers.adapter_type := Some adapter;
     DataSourceHandlers.active := false;
     DataSourceHandlers.archived := None;
     DataSourceHandlers.config := None |}.

Definition standard_only (record : DataSourceHandlers.DataSourceRecord unit)
  : option (option (DataSourceHandlers.DataSourceRecord unit)) :=
  match DataSourceHandlers.adapter_type record with
  | Some adapter => if String.eqb adapter "standard" then Some (Some record) else None
  | None => None
  end.

Definition sample_request (containerID : option (option string))
    (source : option (option (DataSourceHandlers.DataSourceRecord unit))) (count : value)
    (record : DataSourceHandlers.DataSourceRecord unit)
  : DataSourceHandlers.Request unit (option (DataSourceHandlers.DataSourceRecord unit)) :=
  {| DataSourceHandlers.container := containerID;
     DataSourceHandlers.dataSource := source;
     DataSourceHandlers.currentUser := sample_user;
     DataSourceHandlers.query := fun name =>
       if String.eqb name "count" then count else VUndefined;
     DataSourceHandlers.body := record |}.

(** * Properties *)

Local Open Scope list_scope.

(** ** The in-memory cache *)

Section MemoryCacheImpl_facts.
Variable JSON_parse : value -> option value.

Lemma get_absent (c : store) (key : string) :
  c !! key = None -> MemoryCacheImpl.get JSON_parse c key = VUndefined.
Proof. intros H. unfold MemoryCacheImpl.get. now rewrite H. Qed.

Lemma get_falsy (c : store) (key : string) (v : value) :
  c !! key = Some v -> truthy v = false ->
  MemoryCacheImpl.get JSON_parse c key = VUndefined.
Proof. intros H Hv. unfold MemoryCacheImpl.get. now rewrite H, Hv. Qed.

(** A slot whose text does not parse is handed out as it is: the thrown
    error is caught. *)
Lemma get_unparsed (c : store) (key : string) (v : value) :
  c !! key = Some v -> truthy v = true -> JSON_parse v = None ->
  MemoryCacheImpl.get JSON_parse c key = v.
Proof. intros H Hv Hp. unfold MemoryCacheImpl.get. now rewrite H, Hv, Hp. Qed.

Lemma get_after_del (c : store) (key : string) :
  MemoryCacheImpl.get JSON_parse (fst (MemoryCacheImpl.del c key)) key = VUndefined.
Proof. apply get_absent. simpl. apply lookup_delete_eq. Qed.
End MemoryCacheImpl_facts.

(** The cases of [cache.spec.ts]: an object is saved, read back and removed. *)
Example test_memory_cache :
  let testObject := VObj [("test", VStr "test"); ("number", VNum 1)] in
  let '(c, saved) := MemoryCacheImpl.set ∅ "test object" testObject in
  let '(c', deleted) := MemoryCacheImpl.del c "test object" in
  saved = true
  /\ MemoryCacheImpl.get (fun _ => None) c "test object" = testObject
  /\ deleted = true
  /\ MemoryCacheImpl.get (fun _ => None) c' "test object" = VUndefined.
Proof. repeat split. Qed.

(** C10.  [MemoryCacheImpl.get] is a total function of the store and the key
    (it resolves on every input, a throwing [JSON.parse] included), and it
    answers [undefined] both for a key that is not in the store and for a key
    whose stored value is falsy, so that storing a falsy value ([0], [false],
    the empty string) and deleting the key give the same answer. *)
Theorem MemoryCacheImpl_get_falsy_is_miss
    (JSON_parse : value -> option value) (c : store) (key : string) :
  (c !! key = None \/ exists v, c !! key = Some v /\ truthy v = false) ->
  MemoryCacheImpl.get JSON_parse c key = VUndefined
  /\ MemoryCacheImpl.get JSON_parse c key
     = MemoryCacheImpl.get JSON_parse (fst (MemoryCacheImpl.del c key)) key.
Proof.
  intros H.
  assert (Hget : MemoryCacheImpl.get JSON_parse c key = VUndefined).
  { destruct H as [H | (v & H & Hv)];
      [now apply get_absent | now apply get_falsy with v]. }
  split; [exact Hget |].
  now rewrite Hget, get_after_del.
Qed.

Lemma MemoryCacheImpl_get_falsy_is_miss_witness :
  Forall (fun v =>
            MemoryCacheImpl.get (fun _ => None) (fst (MemoryCacheImpl.set ∅ "k" v)) "k"
            = VUndefined)
         [VNum 0; VBool false; VStr ""; VNull; VNaN]
  /\ MemoryCacheImpl.get (fun _ => None) (∅ : store) "k" = VUndefined.
Proof.
  split.
  - repeat constructor;
      match goal with
      | |- MemoryCacheImpl.get _ (fst (MemoryCacheImpl.set _ _ ?v)) _ = _ =>
          apply (MemoryCacheImpl_get_falsy_is_miss (fun _ => None));
          right; exists v; split; [apply lookup_insert_eq | reflexivity]
      end.
  - apply (MemoryCacheImpl_get_falsy_is_miss (fun _ => None)).
    left. apply lookup_empty.
Defined.

(** ** The [Import] record *)

(** C8.  The status of an import is one of the five values ready,
    processing, error, stopped and completed, and a newly constructed import
    is ready and carries none of the aggregate counts. *)
Theorem Import_status_and_construction :
  (forall i : ImportRecord.t,
      In (ImportRecord.status_name (ImportRecord.status i))
         ["ready"; "processing"; "error"; "stopped"; "completed"])
  /\ (forall input : option ImportRecord.Input,
         let i := ImportRecord.new input in
         ImportRecord.status i = ImportRecord.ready
         /\ ImportRecord.total_records i = None
         /\ ImportRecord.records_inserted i = None
         /\ ImportRecord.total_errors i = None).
Proof.
  split.
  - intros i. destruct (ImportRecord.status i); simpl; tauto.
  - intros input. repeat split.
Qed.

(** ** The DELETE handler of a data source *)

Lemma query_flag_spec (v : value) :
  query_flag v = true <-> toLowerCase (String_ v) = "true".
Proof. unfold query_flag. apply String.eqb_eq. Qed.

Example query_flag_any_case :
  List.map query_flag [VStr "true"; VStr "TRUE"; VStr "True"; VStr "tRuE"; VArr [VStr "true"]]
  = [true; true; true; true; true].
Proof. reflexivity. Qed.

Example query_flag_otherwise :
  List.map query_flag [VUndefined; VStr ""; VStr "false"; VStr "1"; VStr "yes"; VStr " true"]
  = [false; false; false; false; false; false].
Proof. reflexivity. Qed.

(** C7.  The DELETE handler: with a data source on the request and the query
    parameter [archive] equal to ['true'] in any letter case, the source is
    handed to the repository's [archive]; with a data source and any other
    [archive], it is handed to the repository's [delete], whose [removeData]
    option is set exactly when the query parameter [removeData] is ['true'];
    without a data source the answer is a failure with code 404. *)
Theorem deleteDataSource_dispatch
    (DataSource : Type) (req : DataSourceRoutes.Request DataSource) :
  let handled := DataSourceRoutes.deleteDataSource DataSource req in
  let flag name := toLowerCase (String_ (DataSourceRoutes.query DataSource req name)) in
  (forall source,
      DataSourceRoutes.dataSource DataSource req = Some source ->
      flag "archive" = "true" ->
      handled
      = DataSourceRoutes.repo_archive DataSource
          (DataSourceRoutes.currentUser DataSource req) source)
  /\ (forall source,
         DataSourceRoutes.dataSource DataSource req = Some source ->
         flag "archive" <> "true" ->
         exists force removeData,
           handled = DataSourceRoutes.repo_delete DataSource source force removeData
           /\ (removeData = true <-> flag "removeData" = "true"))
  /\ (DataSourceRoutes.dataSource DataSource req = None ->
      handled
      = DataSourceRoutes.respond DataSource (Failure "unable to find data source" 404)).
Proof.
  cbv zeta. unfold DataSourceRoutes.deleteDataSource.
  repeat split.
  - intros source -> Ha. apply query_flag_spec in Ha. now rewrite Ha.
  - intros source -> Ha.
    destruct (query_flag (DataSourceRoutes.query DataSource req "archive")) eqn:Hq.
    + apply query_flag_spec in Hq. contradiction.
    + eexists _, _. split; [reflexivity | apply query_flag_spec].
  - now intros ->.
Qed.

Lemma deleteDataSource_dispatch_witness :
  DataSourceRoutes.deleteDataSource string
    (delete_request (VStr "TRUE") VUndefined (Some "source 7"))
  = DataSourceRoutes.repo_archive string {| user_id := Some "1" |} "source 7"
  /\ (exists force removeData,
         DataSourceRoutes.deleteDataSource string
           (delete_request VUndefined (VStr "true") (Some "source 7"))
         = DataSourceRoutes.repo_delete string "source 7" force removeData
         /\ (removeData = true <-> "true" = "true"))
  /\ DataSourceRoutes.deleteDataSource string (delete_request (VStr "true") VUndefined None)
     = DataSourceRoutes.respond string (Failure "unable to find data source" 404).
Proof.
  split; [| split].
  - apply (deleteDataSource_dispatch string
             (delete_request (VStr "TRUE") VUndefined (Some "source 7")));
      reflexivity.
  - apply (deleteDataSource_dispatch string
             (delete_request VUndefined (VStr "true") (Some "source 7")) );
      [reflexivity | discriminate].
  - apply (deleteDataSource_dispatch string (delete_request (VStr "true") VUndefined None)).
    reflexivity.
Defined.

(** ** Time-series data sources *)

Section Timeseries_facts.
Import Timeseries.

Lemma save_rejected (source : DataSourceRecord) (st : Storage) (e : string) :
  validationErrors (config source) = Some e ->
  save source st = (Failure_ e, source, st).
Proof. intros H. unfold save. now rewrite H. Qed.

Lemma save_accepted (source : DataSourceRecord) (st : Storage) :
  validationErrors (config source) = None ->
  exists saved st', save source st = (Success true, saved, st').
Proof. intros H. unfold save. rewrite H. now eexists _, _. Qed.

Lemma validationErrors_primary_count (c : TimeseriesDataSourceConfig) :
  length (primary_timestamps c) <> 1 -> exists e, validationErrors c = Some e.
Proof.
  unfold validationErrors.
  destruct (primary_timestamps c) as [| col [| col' rest]]; simpl; intros H.
  - now eexists.
  - now contradiction H.
  - now eexists.
Qed.
End Timeseries_facts.

(** C1.  A time-series data source whose configuration does not mark exactly
    one column as primary timestamp (none, or two or more) is not saved: the
    save returns a failure and leaves the data source records and the
    time-partitioned tables as they were. *)
Theorem timeseries_save_needs_one_primary_timestamp
    (source : Timeseries.DataSourceRecord) (st : Timeseries.Storage) :
  length (Timeseries.primary_timestamps (Timeseries.config source)) <> 1 ->
  exists e, Timeseries.save source st = (Failure e 500, source, st).
Proof.
  intros H.
  destruct (validationErrors_primary_count _ H) as [e He].
  exists e. now apply save_rejected.
Qed.

(** C2.  A time-series data source whose single primary timestamp column is
    not of type date (a numeric one in particular): without a chunk interval
    the save returns a failure and writes nothing; the same configuration
    with a chunk interval set is saved. *)
Theorem timeseries_numeric_primary_needs_chunk_interval
    (source : Timeseries.DataSourceRecord) (col : Timeseries.TimeseriesColumn)
    (st : Timeseries.Storage) :
  Timeseries.primary_timestamps (Timeseries.config source) = [col] ->
  Timeseries.is_date col = false ->
  (Timeseries.chunk_interval (Timeseries.config source) = None ->
   exists e, Timeseries.save source st = (Failure e 500, source, st))
  /\ (forall interval,
         exists saved st',
           Timeseries.save (Timeseries.with_chunk_interval interval source) st
           = (Success true, saved, st')
           /\ In saved (Timeseries.data_sources st')
           /\ Timeseries.config saved
              = Timeseries.config (Timeseries.with_chunk_interval interval source)).
Proof.
  intros Hp Hd. split.
  - intros Hc. eexists. apply save_rejected.
    unfold Timeseries.validationErrors. now rewrite Hp, Hd, Hc.
  - intros interval.
    assert (Hv : Timeseries.validationErrors
                   (Timeseries.config (Timeseries.with_chunk_interval interval source))
                 = None).
    { unfold Timeseries.validationErrors, Timeseries.primary_timestamps in *.
      simpl. now rewrite Hp, Hd. }
    unfold Timeseries.save. rewrite Hv.
    eexists _, _. split; [reflexivity |]. split; [| reflexivity].
    simpl. apply in_or_app. right. now left.
Qed.

Example test_can_create_a_new_timeseries_data_source :
  saves (test_source [test_column "primary_timestamp" "timestamp" true "date"; temperature] None)
  = true
  /\ saves (test_source [test_column "primary_timestamp" "timestamp" true "number"; temperature]
              None) = false
  /\ saves (test_source [test_column "primary_timestamp" "timestamp" true "number"; temperature]
              (Some "1000")) = true.
Proof. repeat split. Qed.

Example test_fails_if_primary_timestamp_is_missing_or_invalid :
  saves (test_source [temperature] None) = false
  /\ saves (test_source [test_column "primary_timestamp" "timestamp" true "string"; temperature]
              None) = false
  /\ saves (test_source [test_column "primary_timestamp" "timestamp" true "number";
                         test_column "primary_timestamp2" "timestamp" true "number";
                         temperature] None) = false.
Proof. repeat split. Qed.

Lemma timeseries_save_needs_one_primary_timestamp_witness :
  (exists e,
      Timeseries.save
        (test_source [test_column "primary_timestamp" "timestamp" true "number";
                      test_column "primary_timestamp2" "timestamp" true "number";
                      temperature] (Some "1000")) no_storage
      = (Failure e 500,
         test_source [test_column "primary_timestamp" "timestamp" true "number";
                      test_column "primary_timestamp2" "timestamp" true "number";
                      temperature] (Some "1000"),
         no_storage))
  /\ exists e,
      Timeseries.save (test_source [temperature] None) no_storage
      = (Failure e 500, test_source [temperature] None, no_storage).
Proof.
  split; apply timeseries_save_needs_one_primary_timestamp; simpl; lia.
Defined.

Lemma timeseries_numeric_primary_needs_chunk_interval_witness :
  let source :=
    test_source [test_column "primary_timestamp" "timestamp" true "number"; temperature] None in
  (exists e, Timeseries.save source no_storage = (Failure e 500, source, no_storage))
  /\ exists saved st',
      Timeseries.save (Timeseries.with_chunk_interval "1000" source) no_storage
      = (Success true, saved, st')
      /\ In saved (Timeseries.data_sources st')
      /\ Timeseries.config saved
         = Timeseries.config (Timeseries.with_chunk_interval "1000" source).
Proof.
  intros source.
  destruct (timeseries_numeric_primary_needs_chunk_interval source
              (test_column "primary_timestamp" "timestamp" true "number") no_storage
              eq_refl eq_refl) as [Hwithout Hwith].
  split; [apply Hwithout; reflexivity | apply Hwith].
Defined.

(** ** The metatype key repository *)

Section MetatypeKeyRepository_facts.
Import MetatypeKey.
Variable E : Collaborators.

Lemma has_id_Some (k : t) (i : string) : has_id k = Some i -> id k = Val i /\ i <> "".
Proof.
  unfold has_id. destruct (id k) as [| | | j]; try discriminate.
  destruct (String.eqb_spec j ""); [discriminate |].
  intros [= ->]. now split.
Qed.

(** A hit: the cached list is answered and nothing else happens. *)
Lemma listForMetatype_hit (metatypeID : string) (w : World) (cached : list t) :
  MetatypeKeyRepository.getCachedForMetatype E metatypeID (cache w) = Some cached ->
  MetatypeKeyRepository.listForMetatype E metatypeID w = (Success cached, w).
Proof. intros H. unfold MetatypeKeyRepository.listForMetatype. now rewrite H. Qed.

(** A miss: the mapper's answer is the answer. *)
Lemma listForMetatype_miss (metatypeID : string) (w : World) :
  MetatypeKeyRepository.getCachedForMetatype E metatypeID (cache w) = None ->
  fst (MetatypeKeyRepository.listForMetatype E metatypeID w)
  = MetatypeKeyMapper.ListForMetatype E metatypeID (db w).
Proof.
  intros H. unfold MetatypeKeyRepository.listForMetatype. rewrite H.
  now destruct (MetatypeKeyMapper.ListForMetatype E metatypeID (db w)).
Qed.
End MetatypeKeyRepository_facts.

(** C9.  For a metatype key without an id (the property is not set, or is
    set to [undefined], to [null] or to the empty string), [delete],
    [archive] and [unarchive] each answer the failure [key has no id] and
    leave the database and the cache as they were. *)
Theorem no_id_no_mutation
    (E : Collaborators) (user : User) (k : MetatypeKey.t) (w : World) :
  MetatypeKey.has_id k = None ->
  MetatypeKeyRepository.delete E k w = (Failure "key has no id" 500, w)
  /\ MetatypeKeyRepository.archive E user k w = (Failure "key has no id" 500, w)
  /\ MetatypeKeyRepository.unarchive E user k w = (Failure "key has no id" 500, w).
Proof.
  intros H.
  unfold MetatypeKeyRepository.delete, MetatypeKeyRepository.archive,
    MetatypeKeyRepository.unarchive.
  now rewrite H.
Qed.

Lemma no_id_no_mutation_witness :
  let k := sample_key Absent "10" "a" in
  MetatypeKeyRepository.delete sample_collaborators k world_with_key
  = (Failure "key has no id" 500, world_with_key)
  /\ MetatypeKeyRepository.archive sample_collaborators sample_user k world_with_key
     = (Failure "key has no id" 500, world_with_key)
  /\ MetatypeKeyRepository.unarchive sample_collaborators sample_user k world_with_key
     = (Failure "key has no id" 500, world_with_key).
Proof.
  intros k.
  apply (no_id_no_mutation sample_collaborators sample_user k world_with_key).
  reflexivity.
Defined.

(** C5.  [listForMetatype] reads through the cache.  When the cache holds a
    (truthy) key list for the metatype, that list is the answer and neither
    the database nor the cache is touched.  On a miss the answer is the one of
    the mapper's [ListForMetatype], whatever it is: the miss adds no error of
    its own and does not replace the mapper's keys; the database is left as it
    was, and when the mapper answers with keys they are written to the
    metatype's cache slot. *)
Theorem listForMetatype_read_through
    (E : Collaborators) (metatypeID : string) (w : World) :
  let slot := MetatypeKeyRepository.keys_slot E (VStr metatypeID) in
  let cached := MemoryCacheImpl.get (JSON_parse E) (cache w) slot in
  let answer := MetatypeKeyRepository.listForMetatype E metatypeID w in
  (truthy cached = true -> answer = (Success (plainToClass E cached), w))
  /\ (truthy cached = false ->
      fst answer = MetatypeKeyMapper.ListForMetatype E metatypeID (db w)
      /\ db (snd answer) = db w
      /\ (forall keys,
             MetatypeKeyMapper.ListForMetatype E metatypeID (db w) = Success keys ->
             cache (snd answer) !! slot = Some (VStr (serialize E keys)))
      /\ (isError (fst answer) = true -> snd answer = w)).
Proof.
  cbv zeta. split; intros Hc.
  - apply listForMetatype_hit.
    unfold MetatypeKeyRepository.getCachedForMetatype. now rewrite Hc.
  - assert (Hmiss : MetatypeKeyRepository.getCachedForMetatype E metatypeID (cache w) = None).
    { unfold MetatypeKeyRepository.getCachedForMetatype. now rewrite Hc. }
    split; [now apply listForMetatype_miss |].
    unfold MetatypeKeyRepository.listForMetatype. rewrite Hmiss.
    destruct (MetatypeKeyMapper.ListForMetatype E metatypeID (db w)) as [keys | e code];
      simpl.
    + split; [reflexivity |]. split; [| discriminate].
      intros keys' [= <-]. apply lookup_insert_eq.
    + split; [reflexivity |]. split; [discriminate | reflexivity].
Qed.

Lemma listForMetatype_read_through_witness :
  MetatypeKeyRepository.listForMetatype sample_collaborators "10" world_with_key
  = (Success [sample_key Absent "" "[a]"], world_with_key)
  /\ fst (MetatypeKeyRepository.listForMetatype sample_collaborators "10"
            {| db := db world_with_key; cache := ∅ |})
     = Success [stored_key].
Proof.
  split.
  - apply (listForMetatype_read_through sample_collaborators "10" world_with_key).
    vm_compute. reflexivity.
  - destruct (listForMetatype_read_through sample_collaborators "10"
                {| db := db world_with_key; cache := ∅ |}) as [_ Hmiss].
    destruct (Hmiss eq_refl) as [Hanswer _].
    rewrite Hanswer. vm_compute. reflexivity.
Defined.

(** *** Cache invalidation *)

Section invalidation_facts.
Import MetatypeKey.
Variable E : Collaborators.

(** Whatever the metatype repository's helper does, [save] and [bulkSave]
    delete the key list of the key's metatype themselves. *)
Lemma clear_parent_keys_slot (key : t) (c : store) :
  MetatypeKeyRepository.clear_parent E key c
    !! MetatypeKeyRepository.keys_slot E (read (metatype_id key)) = None.
Proof. unfold MetatypeKeyRepository.clear_parent. simpl. apply lookup_delete_eq. Qed.

Lemma save_cache (m : t) (user : User) (w : World) :
  validationErrors E m = None ->
  cache (snd (MetatypeKeyRepository.save E m user w))
  = MetatypeKeyRepository.clear_parent E m (cache w).
Proof.
  intros Hv. unfold MetatypeKeyRepository.save. rewrite Hv.
  destruct (has_id m) as [i |].
  - destruct (MetatypeKeyRepository.findByID E i w); [| reflexivity].
    now destruct (MetatypeKeyMapper.Update E _ _ false (db w)) as [[] ?].
  - now destruct (MetatypeKeyMapper.Create E _ _ false (db w)) as [[] ?].
Qed.

(** [delete], [archive] and [unarchive] leave the cache to the helper. *)
Lemma delete_cache (k : t) (w : World) (i : string) :
  has_id k = Some i ->
  cache (snd (MetatypeKeyRepository.delete E k w))
  = MetatypeKeyRepository.metatypeRepo_deleteCached E k (cache w).
Proof.
  intros H. unfold MetatypeKeyRepository.delete. rewrite H.
  now destruct (MetatypeKeyMapper.Delete E i (db w)).
Qed.

Lemma archive_cache (user : User) (k : t) (w : World) (i : string) :
  has_id k = Some i ->
  cache (snd (MetatypeKeyRepository.archive E user k w))
  = MetatypeKeyRepository.metatypeRepo_deleteCached E k (cache w).
Proof.
  intros H. unfold MetatypeKeyRepository.archive. rewrite H.
  now destruct (MetatypeKeyMapper.Archive E i (user_id user) (db w)).
Qed.

Lemma unarchive_cache (user : User) (k : t) (w : World) (i : string) :
  has_id k = Some i ->
  cache (snd (MetatypeKeyRepository.unarchive E user k w))
  = MetatypeKeyRepository.metatypeRepo_deleteCached E k (cache w).
Proof.
  intros H. unfold MetatypeKeyRepository.unarchive. rewrite H.
  now destruct (MetatypeKeyMapper.Unarchive E i (user_id user) (db w)).
Qed.

(** The loop of [bulkSave] ends early exactly on a key that fails
    validation; otherwise it sorts the keys in their order. *)
Lemma sort_keys_valid (k toCreate toUpdate : list t) (c : store) :
  Forall (fun key => validationErrors E key = None) k ->
  exists c',
    MetatypeKeyRepository.sort_keys E k toCreate toUpdate c
    = inr ((toCreate ++ List.filter (fun key => negb (bool_decide (is_Some (has_id key)))) k)%list,
           (toUpdate ++ List.filter (fun key => bool_decide (is_Some (has_id key))) k)%list,
           c')
    /\ c' = fold_left (fun acc key => MetatypeKeyRepository.clear_parent E key acc) k c.
Proof.
  intros Hall. revert toCreate toUpdate c.
  induction Hall as [| key k Hkey _ IH]; intros toCreate toUpdate c; simpl.
  - eexists. now rewrite !app_nil_r.
  - rewrite Hkey. destruct (has_id key) as [i |] eqn:Hid; simpl.
    + destruct (IH toCreate (toUpdate ++ [key])
                  (MetatypeKeyRepository.clear_parent E key c)) as (c' & -> & ->).
      eexists. split; [| reflexivity]. now rewrite <- app_assoc.
    + destruct (IH (toCreate ++ [key]) toUpdate
                  (MetatypeKeyRepository.clear_parent E key c)) as (c' & -> & ->).
      eexists. split; [| reflexivity]. now rewrite <- app_assoc.
Qed.

Lemma sort_keys_invalid (k toCreate toUpdate : list t) (c : store) :
  Exists (fun key => validationErrors E key <> None) k ->
  exists errors c', MetatypeKeyRepository.sort_keys E k toCreate toUpdate c = inl (errors, c').
Proof.
  intros Hex. revert toCreate toUpdate c.
  induction k as [| key k IH]; intros toCreate toUpdate c; simpl.
  - inversion Hex.
  - destruct (validationErrors E key) as [errors |] eqn:Hkey; [now eexists _, _ |].
    inversion Hex as [? ? Hbad | ? ? Hrest]; subst; [congruence |].
    destruct (has_id key); now apply IH.
Qed.

Lemma bulkSave_cache (user : User) (k : list t) (w : World) :
  Forall (fun key => validationErrors E key = None) k ->
  cache (snd (MetatypeKeyRepository.bulkSave E user k w))
  = fold_left (fun acc key => MetatypeKeyRepository.clear_parent E key acc) k (cache w).
Proof.
  intros Hall.
  destruct (sort_keys_valid k [] [] (cache w) Hall) as (c' & Hs & ->).
  unfold MetatypeKeyRepository.bulkSave. rewrite Hs. simpl.
  destruct (Mapper.startTransaction E (db w)) as [[] d0]; [| reflexivity].
  destruct (match List.filter _ k with [] => _ | _ :: _ => _ end) as [[] d1];
    [| reflexivity].
  destruct (match List.filter _ k with [] => _ | _ :: _ => _ end) as [[] d2];
    [| reflexivity].
  now destruct (Mapper.completeTransaction E d2) as [[] d3].
Qed.

Hypothesis helper : MetatypeRepository.deleteCached_clears E.

Lemma clear_parent_adds_nothing (key : t) (c : store) (slot : string) :
  c !! slot = None -> MetatypeKeyRepository.clear_parent E key c !! slot = None.
Proof.
  intros H. unfold MetatypeKeyRepository.clear_parent. simpl.
  apply lookup_delete_None. right. now apply helper.
Qed.

Lemma clear_parent_metatype_slot (key : t) (metatypeID : string) (c : store) :
  metatype_id key = Val metatypeID ->
  MetatypeKeyRepository.clear_parent E key c
    !! MetatypeRepository.metatype_slot E (VStr metatypeID) = None.
Proof.
  intros Hm. unfold MetatypeKeyRepository.clear_parent,
    MetatypeKeyRepository.metatypeRepo_deleteCached. rewrite Hm. simpl.
  apply lookup_delete_None. right. apply helper.
Qed.

Lemma clear_all_adds_nothing (k : list t) (c : store) (slot : string) :
  c !! slot = None ->
  fold_left (fun acc key => MetatypeKeyRepository.clear_parent E key acc) k c !! slot = None.
Proof.
  revert c. induction k as [| key k IH]; intros c H; simpl; [exact H |].
  apply IH. now apply clear_parent_adds_nothing.
Qed.

Lemma clear_all_clears (k : list t) (c : store) (key : t) (metatypeID : string) :
  In key k -> metatype_id key = Val metatypeID ->
  let c' := fold_left (fun acc key => MetatypeKeyRepository.clear_parent E key acc) k c in
  c' !! MetatypeKeyRepository.keys_slot E (VStr metatypeID) = None
  /\ c' !! MetatypeRepository.metatype_slot E (VStr metatypeID) = None.
Proof.
  revert c. induction k as [| key' k IH]; intros c Hin Hm; simpl in *; [contradiction |].
  destruct Hin as [-> | Hin]; [| now apply IH].
  split; apply clear_all_adds_nothing.
  - pose proof (clear_parent_keys_slot key c) as H. now rewrite Hm in H.
  - now apply clear_parent_metatype_slot.
Qed.

Lemma helper_clears (key : t) (metatypeID : string) (c : store) :
  metatype_id key = Val metatypeID ->
  MetatypeKeyRepository.metatypeRepo_deleteCached E key c
    !! MetatypeKeyRepository.keys_slot E (VStr metatypeID) = None
  /\ MetatypeKeyRepository.metatypeRepo_deleteCached E key c
       !! MetatypeRepository.metatype_slot E (VStr metatypeID) = None.
Proof.
  intros Hm. unfold MetatypeKeyRepository.metatypeRepo_deleteCached. rewrite Hm. simpl.
  split; apply helper.
Qed.
End invalidation_facts.

Lemma sample_deleteCached_clears : MetatypeRepository.deleteCached_clears sample_collaborators.
Proof.
  split.
  - intros i containerID c slot H. simpl. unfold MetatypeRepository.deleteCached.
    apply lookup_delete_None. right. apply lookup_delete_None. now right.
  - intros metatypeID containerID c. simpl. unfold MetatypeRepository.deleteCached. split.
    + apply lookup_delete_None. right. apply lookup_delete_eq.
    + apply lookup_delete_eq.
Qed.




(** *** The statements of the mapper *)

Section statement_facts.
Import MetatypeKey.
Variable E : Collaborators.
Variable userID : option string.

(** A key with an id names the row that the text of the id reads as. *)
Lemma named_row_has_id (key : t) (i : string) :
  has_id key = Some i -> MetatypeKeyMapper.named_row E key = Some <$> bigint E i.
Proof.
  intros H. apply has_id_Some in H as [H _].
  unfold MetatypeKeyMapper.named_row. now rewrite H.
Qed.

(** [createStatement] adds one row per key under ids that were free, keeps
    every row that was there, and returns the new rows in the order of the
    keys. *)
Lemma createStatement_rows (keys : list t) (tbl tbl' : table) (objs : list t) :
  MetatypeKeyMapper.createStatement E userID keys tbl = Some (tbl', objs) ->
  exists ids rows,
    NoDup ids
    /\ Forall (fun i => tbl !! i = None) ids
    /\ Forall2 (fun key row => MetatypeKeyMapper.created_row E userID key = Some row) keys rows
    /\ Forall2 (fun i row => tbl' !! i = Some row) ids rows
    /\ objs = zip_with MetatypeKeyMapper.of_row ids rows
    /\ (forall j row, tbl !! j = Some row -> tbl' !! j = Some row)
    /\ size tbl' = size tbl + length keys.
Proof.
  revert tbl tbl' objs. induction keys as [| key rest IH]; intros tbl tbl' objs; simpl.
  - intros [= <- <-]. exists [], []. repeat split; try constructor; auto.
  - destruct (MetatypeKeyMapper.created_row E userID key) as [row |] eqn:Hrow;
      [| discriminate]. simpl.
    set (i := fresh (dom tbl)).
    assert (Hfree : tbl !! i = None) by (apply not_elem_of_dom, is_fresh).
    destruct (MetatypeKeyMapper.createStatement E userID rest (<[i := row]> tbl))
      as [[tbl1 objs1] |] eqn:Hrest; [| discriminate]. simpl.
    intros [= <- <-].
    destruct (IH _ _ _ Hrest) as (ids & rows & Hnd & Hfresh & Hrows & Hnew & -> & Hkeep & Hsize).
    exists (i :: ids), (row :: rows). repeat split.
    + apply NoDup_cons. split; [| exact Hnd].
      intros Hin. apply (proj1 (Forall_forall _ _) Hfresh) in Hin.
      now rewrite lookup_insert_eq in Hin.
    + constructor; [exact Hfree |].
      eapply Forall_impl; [exact Hfresh |].
      intros i' Hi'. simpl in Hi'. apply lookup_insert_None in Hi'. tauto.
    + now constructor.
    + constructor; [| exact Hnew]. apply Hkeep, lookup_insert_eq.
    + intros j r Hj. apply Hkeep.
      rewrite lookup_insert_ne; [exact Hj |]. intros <-. congruence.
    + rewrite Hsize, map_size_insert_None by exact Hfree. lia.
Qed.

(** The statement has no answer exactly when one of the rows cannot be
    written. *)
Lemma createStatement_None (keys : list t) (tbl : table) :
  MetatypeKeyMapper.createStatement E userID keys tbl = None
  <-> Exists (fun key => MetatypeKeyMapper.created_row E userID key = None) keys.
Proof.
  revert tbl. induction keys as [| key rest IH]; intros tbl; simpl.
  - split; [discriminate | inversion 1].
  - destruct (MetatypeKeyMapper.created_row E userID key) as [row |] eqn:Hrow; simpl.
    + specialize (IH (<[fresh (dom tbl) := row]> tbl)).
      destruct (MetatypeKeyMapper.createStatement E userID rest _) as [[tbl1 objs1] |];
        simpl.
      * split; [discriminate |].
        intros Hex. inversion Hex as [? ? Hbad | ? ? Hlater]; subst; [congruence |].
        now apply IH in Hlater.
      * split; [| reflexivity]. intros _. right. now apply IH.
    + split; [| reflexivity]. intros _. now left.
Qed.

(** [fullUpdateStatement] adds no row and removes none. *)
Lemma update_rows_None (keys : list t) (seen : list Z) (tbl tbl' : table) (objs : list t)
    (j : Z) :
  MetatypeKeyMapper.update_rows E userID keys seen tbl = Some (tbl', objs) ->
  tbl' !! j = None <-> tbl !! j = None.
Proof.
  revert seen tbl tbl' objs. induction keys as [| key rest IH]; intros seen tbl tbl' objs; simpl.
  - now intros [= <- <-].
  - destruct (MetatypeKeyMapper.named_row E key) as [[i |] |]; simpl;
      [| apply IH | discriminate].
    destruct (tbl !! i) as [old |] eqn:Hi; [| apply IH].
    destruct (MetatypeKeyMapper.updated_row E userID old key) as [row |];
      [| discriminate]. simpl.
    destruct (bool_decide (i ∈ seen)); [apply IH |].
    destruct (MetatypeKeyMapper.update_rows E userID rest (i :: seen) (<[i := row]> tbl))
      as [[tbl1 objs1] |] eqn:Hrest; [| discriminate]. simpl.
    intros [= <- <-]. rewrite (IH _ _ _ _ Hrest), lookup_insert_None.
    split; [tauto |]. intros Hj. split; [exact Hj | congruence].
Qed.

(** A row that has been rewritten is not rewritten again. *)
Lemma update_rows_seen (keys : list t) (seen : list Z) (tbl tbl' : table) (objs : list t)
    (j : Z) :
  MetatypeKeyMapper.update_rows E userID keys seen tbl = Some (tbl', objs) ->
  j ∈ seen -> tbl' !! j = tbl !! j.
Proof.
  revert seen tbl tbl' objs. induction keys as [| key rest IH]; intros seen tbl tbl' objs; simpl.
  - now intros [= <- <-].
  - destruct (MetatypeKeyMapper.named_row E key) as [[i |] |]; simpl;
      [| apply IH | discriminate].
    destruct (tbl !! i) as [old |] eqn:Hi; [| apply IH].
    destruct (MetatypeKeyMapper.updated_row E userID old key) as [row |];
      [| discriminate]. simpl.
    destruct (decide (i ∈ seen)) as [Hseen | Hseen].
    + rewrite bool_decide_eq_true_2 by exact Hseen. apply IH.
    + rewrite bool_decide_eq_false_2 by exact Hseen.
      destruct (MetatypeKeyMapper.update_rows E userID rest (i :: seen) (<[i := row]> tbl))
        as [[tbl1 objs1] |] eqn:Hrest; [| discriminate]. simpl.
      intros [= <- <-] Hj. rewrite (IH _ _ _ _ Hrest) by (now right).
      apply lookup_insert_ne. intros <-. contradiction.
Qed.

(** A row that no key names stays as it is. *)
Lemma update_rows_other (keys : list t) (seen : list Z) (tbl tbl' : table) (objs : list t)
    (j : Z) :
  MetatypeKeyMapper.update_rows E userID keys seen tbl = Some (tbl', objs) ->
  (forall key, In key keys -> MetatypeKeyMapper.named_row E key <> Some (Some j)) ->
  tbl' !! j = tbl !! j.
Proof.
  revert seen tbl tbl' objs.
  induction keys as [| key rest IH]; intros seen tbl tbl' objs; simpl.
  - now intros [= <- <-].
  - intros Hrun Hother.
    assert (Hrest : forall key', In key' rest ->
                                 MetatypeKeyMapper.named_row E key' <> Some (Some j))
      by (intros key' Hin; apply Hother; now right).
    specialize (Hother key (or_introl eq_refl)).
    destruct (MetatypeKeyMapper.named_row E key) as [[i |] |]; simpl in Hrun;
      [| now apply (IH seen tbl tbl' objs) | discriminate].
    destruct (tbl !! i) as [old |] eqn:Hi; [| now apply (IH seen tbl tbl' objs)].
    destruct (MetatypeKeyMapper.updated_row E userID old key) as [row |];
      [| discriminate]. simpl in Hrun.
    destruct (bool_decide (i ∈ seen)); [now apply (IH seen tbl tbl' objs) |].
    destruct (MetatypeKeyMapper.update_rows E userID rest (i :: seen) (<[i := row]> tbl))
      as [[tbl1 objs1] |] eqn:Hrun1; [| discriminate]. simpl in Hrun.
    injection Hrun as <- <-. rewrite (IH _ _ _ _ Hrun1 Hrest).
    apply lookup_insert_ne. congruence.
Qed.

(** A key that names a stored row, alone among the keys, rewrites that
    row. *)
Lemma update_rows_row (keys : list t) (seen : list Z) (tbl tbl' : table) (objs : list t)
    (key : t) (old : KeyRow.t) (i : Z) :
  MetatypeKeyMapper.update_rows E userID keys seen tbl = Some (tbl', objs) ->
  In key keys -> MetatypeKeyMapper.named_row E key = Some (Some i) ->
  i ∉ seen -> tbl !! i = Some old ->
  (forall other, In other keys -> MetatypeKeyMapper.named_row E other = Some (Some i) ->
                 other = key) ->
  exists row,
    MetatypeKeyMapper.updated_row E userID old key = Some row /\ tbl' !! i = Some row.
Proof.
  revert seen tbl tbl' objs.
  induction keys as [| key0 rest IH]; intros seen tbl tbl' objs Hrun Hin Hnamed Hseen Hold
    Halone; simpl in *; [contradiction |].
  assert (Hrest : forall other, In other rest ->
                                MetatypeKeyMapper.named_row E other = Some (Some i) ->
                                other = key)
    by (intros other Ho; apply Halone; now right).
  destruct (MetatypeKeyMapper.named_row E key0) as [[i0 |] |] eqn:H0; simpl in Hrun;
    [| | discriminate].
  - destruct (decide (i0 = i)) as [-> | Hne].
    + assert (key0 = key) as -> by (apply Halone; [now left | exact H0]).
      rewrite Hold in Hrun.
      destruct (MetatypeKeyMapper.updated_row E userID old key) as [row |];
        [| discriminate]. simpl in Hrun.
      rewrite bool_decide_eq_false_2 in Hrun by exact Hseen.
      destruct (MetatypeKeyMapper.update_rows E userID rest (i :: seen) (<[i := row]> tbl))
        as [[tbl1 objs1] |] eqn:Hrun1; [| discriminate]. simpl in Hrun.
      injection Hrun as <- <-. exists row. split; [reflexivity |].
      rewrite (update_rows_seen _ _ _ _ _ i Hrun1) by (now left).
      apply lookup_insert_eq.
    + assert (Hin' : In key rest).
      { destruct Hin as [-> | Hin]; [congruence | exact Hin]. }
      destruct (tbl !! i0) as [old0 |] eqn:Hi0; [| now apply (IH seen tbl tbl' objs)].
      destruct (MetatypeKeyMapper.updated_row E userID old0 key0) as [row0 |];
        [| discriminate]. simpl in Hrun.
      destruct (bool_decide (i0 ∈ seen)); [now apply (IH seen tbl tbl' objs) |].
      destruct (MetatypeKeyMapper.update_rows E userID rest (i0 :: seen) (<[i0 := row0]> tbl))
        as [[tbl1 objs1] |] eqn:Hrun1; [| discriminate]. simpl in Hrun.
      injection Hrun as <- <-.
      apply (IH (i0 :: seen) (<[i0 := row0]> tbl) tbl1 objs1); try assumption.
      * intros Hmem. apply elem_of_cons in Hmem as [-> | Hmem]; [congruence | contradiction].
      * now rewrite lookup_insert_ne.
  - assert (Hin' : In key rest).
    { destruct Hin as [-> | Hin]; [congruence | exact Hin]. }
    now apply (IH seen tbl tbl' objs).
Qed.
End statement_facts.

(** *** The bulk save *)

Section bulkSave_facts.
Import MetatypeKey.
Variable E : Collaborators.
Variable user : User.

Lemma run_in_transaction {A} (stmt : Statement) (effect : table -> option (table * A))
    (d : Database) (tbl : table) :
  in_flight d = Some tbl ->
  Mapper.run E stmt true effect d
  = match db_error E stmt with
    | Some e => (Failure_ e, d)
    | None =>
        match effect tbl with
        | Some out =>
            (Success (snd out),
             {| committed := committed d; in_flight := Some (fst out) |})
        | None => (Failure_ Mapper.statement_error, d)
        end
    end.
Proof.
  intros H. unfold Mapper.run. rewrite H.
  destruct (db_error E stmt); [reflexivity |]. now destruct (effect tbl) as [[] |].
Qed.

(** [bulkSave] on keys that all pass validation, step by step. *)
Lemma bulkSave_valid (k : list t) (w : World) :
  Forall (fun key => validationErrors E key = None) k ->
  let c := fold_left (fun acc key => MetatypeKeyRepository.clear_parent E key acc) k (cache w) in
  let rolled_back := {| db := {| committed := committed (db w); in_flight := None |};
                        cache := c |} in
  MetatypeKeyRepository.bulkSave E user k w
  = match db_error E StartTransaction with
    | Some _ =>
        (Failure_ "unable to initiate db transaction", k, {| db := db w; cache := c |})
    | None =>
        match error_unless_empty E (keys_to_update k) BulkUpdateStatement with
        | Some e => (Failure_ e, k, rolled_back)
        | None =>
            match MetatypeKeyMapper.fullUpdateStatement E (user_id user) (keys_to_update k)
                    (committed (db w)) with
            | None => (Failure_ Mapper.statement_error, k, rolled_back)
            | Some updated =>
                match error_unless_empty E (keys_to_create k) BulkCreateStatement with
                | Some e => (Failure_ e, k, rolled_back)
                | None =>
                    match MetatypeKeyMapper.createStatement E (user_id user)
                            (keys_to_create k) (fst updated) with
                    | None => (Failure_ Mapper.statement_error, k, rolled_back)
                    | Some created =>
                        match db_error E CompleteTransaction with
                        | Some e =>
                            (Failure_ ("unable to commit changes to database " ++ e)%string,
                             k, rolled_back)
                        | None =>
                            (Success true,
                             MetatypeKeyRepository.assign_results k
                               (snd updated ++ snd created),
                             {| db := {| committed := fst created; in_flight := None |};
                                cache := c |})
                        end
                    end
                end
            end
        end
    end.
Proof.
  intros Hall. cbv zeta.
  destruct (sort_keys_valid E k [] [] (cache w) Hall) as (c' & Hs & ->).
  unfold MetatypeKeyRepository.bulkSave. rewrite Hs. simpl.
  fold (keys_to_update k). fold (keys_to_create k).
  unfold Mapper.startTransaction.
  destruct (db_error E StartTransaction); [reflexivity |].
  unfold MetatypeKeyMapper.BulkUpdate, MetatypeKeyMapper.BulkCreate,
    Mapper.completeTransaction, Mapper.rollbackTransaction.
  destruct (keys_to_update k) as [| ku restu] eqn:Hu; simpl (error_unless_empty _ _ _).
  - unfold MetatypeKeyMapper.fullUpdateStatement. simpl MetatypeKeyMapper.update_rows.
    cbv iota beta. simpl fst. simpl snd.
    destruct (keys_to_create k) as [| kc restc] eqn:Hc; simpl (error_unless_empty _ _ _).
    + simpl. destruct (db_error E CompleteTransaction); reflexivity.
    + rewrite (run_in_transaction _ _ _ (committed (db w))) by reflexivity.
      destruct (db_error E BulkCreateStatement); [reflexivity |].
      unfold MetatypeKeyMapper.with_values.
      destruct (MetatypeKeyMapper.createStatement E (user_id user) (kc :: restc)
                  (committed (db w))) as [created |]; [| reflexivity].
      simpl. destruct (db_error E CompleteTransaction); reflexivity.
  - rewrite (run_in_transaction _ _ _ (committed (db w))) by reflexivity.
    destruct (db_error E BulkUpdateStatement); [reflexivity |].
    unfold MetatypeKeyMapper.with_values.
    destruct (MetatypeKeyMapper.fullUpdateStatement E (user_id user) (ku :: restu)
                (committed (db w))) as [updated |]; [| reflexivity].
    destruct (keys_to_create k) as [| kc restc] eqn:Hc; simpl (error_unless_empty _ _ _).
    + simpl. destruct (db_error E CompleteTransaction); reflexivity.
    + rewrite (run_in_transaction _ _ _ (fst updated)) by reflexivity.
      destruct (db_error E BulkCreateStatement); [reflexivity |].
      destruct (MetatypeKeyMapper.createStatement E (user_id user) (kc :: restc)
                  (fst updated)) as [created |]; [| reflexivity].
      simpl. destruct (db_error E CompleteTransaction); reflexivity.
Qed.

(** [bulkSave] on keys of which one fails validation. *)
Lemma bulkSave_invalid (k : list t) (w : World) :
  Exists (fun key => validationErrors E key <> None) k ->
  exists e c,
    MetatypeKeyRepository.bulkSave E user k w
    = (Failure_ e, k, {| db := db w; cache := c |}).
Proof.
  intros Hex.
  destruct (sort_keys_invalid E k [] [] (cache w) Hex) as (errors & c & Hs).
  unfold MetatypeKeyRepository.bulkSave. rewrite Hs. now eexists _, _.
Qed.

Lemma valid_or_invalid (k : list t) :
  Forall (fun key => validationErrors E key = None) k
  \/ Exists (fun key => validationErrors E key <> None) k.
Proof.
  induction k as [| key k [IH | IH]].
  - left. constructor.
  - destruct (validationErrors E key) eqn:Hv.
    + right. left. congruence.
    + left. now constructor.
  - right. now right.
Qed.
End bulkSave_facts.

Lemma Forall_Exists_neg_None {A B} (f : A -> option B) (l : list A) :
  Forall (fun x => f x = None) l -> Exists (fun x => f x <> None) l -> False.
Proof.
  intros Hall Hex. apply List.Exists_exists in Hex as (x & Hin & Hx).
  apply Hx. exact (proj1 (List.Forall_forall _ l) Hall x Hin).
Qed.

Lemma Forall2_through {A B C} (P : B -> C -> Prop) (Q : A -> C -> Prop) (R : A -> Prop)
    (la : list A) (lb : list B) (lc : list C) :
  Forall2 P lb lc -> Forall2 Q la lc -> Forall R la ->
  Forall2 (fun a b => R a /\ exists c, P b c /\ Q a c) la lb.
Proof.
  intros HP. revert la. induction HP as [| b c lb lc Hbc _ IH]; intros la HQ HR.
  - inversion HQ; subst. constructor.
  - inversion HQ as [| a ? la' ? Hac HQ']; subst.
    inversion HR as [| ? ? Ha HR']; subst.
    constructor; [| now apply IH].
    split; [exact Ha |]. now exists c.
Qed.




(** Of two keys that name the same row only one is persisted: the row is
    rewritten once. *)
Example bulkSave_repeated_id_persists_one :
  let k := [sample_key (Val "1") "10" "y"; sample_key (Val "01") "10" "z"] in
  let out := MetatypeKeyRepository.bulkSave sample_collaborators sample_user k
               world_with_key in
  isError (fst (fst out)) = false
  /\ ~ (forall key, In key k ->
                    persisted sample_collaborators (committed (db (snd out))) key).
Proof.
  cbv zeta. split; [vm_compute; reflexivity |].
  intros both.
  destruct (both (sample_key (Val "1") "10" "y") ltac:(now left))
    as (i & row & written & Hrow & Hwritten & Hsame & Hid).
  destruct (both (sample_key (Val "01") "10" "z") ltac:(right; now left))
    as (i' & row' & written' & Hrow' & Hwritten' & Hsame' & Hid').
  specialize (Hid "1" eq_refl). specialize (Hid' "01" eq_refl).
  vm_compute in Hid, Hid'. injection Hid as <-. injection Hid' as <-.
  rewrite Hrow in Hrow'. injection Hrow' as <-.
  vm_compute in Hwritten, Hwritten'. injection Hwritten as <-. injection Hwritten' as <-.
  destruct Hsame as (_ & _ & Hname & _), Hsame' as (_ & _ & Hname' & _).
  simpl in Hname, Hname'. congruence.
Qed.

(** ** Shape fingerprinting *)

Section field_lists.
Import Fingerprint.
Context {A : Type}.
Implicit Types (l : list (string * A)) (k : string) (a : A).

Lemma compare_Lt_trans (s1 s2 s3 : string) :
  String.compare s1 s2 = Lt -> String.compare s2 s3 = Lt -> String.compare s1 s3 = Lt.
Proof.
  intros H12 H23.
  assert (Hle : String.le s1 s3).
  { transitivity s2; unfold String.le, String.leb; [now rewrite H12 | now rewrite H23]. }
  unfold String.le, String.leb in Hle.
  destruct (String.compare s1 s3) eqn:H13; [| reflexivity | contradiction].
  apply String.compare_eq_iff in H13. subst s3.
  rewrite String.compare_antisym, H12 in H23. discriminate.
Qed.

Lemma compare_Lt_neq (s1 s2 : string) : String.compare s1 s2 = Lt -> String.eqb s1 s2 = false.
Proof.
  intros H. apply String.eqb_neq. intros ->.
  pose proof (String.compare_antisym s2 s2) as Ha. rewrite H in Ha. discriminate.
Qed.

Lemma compare_Gt_Lt (s1 s2 : string) : String.compare s1 s2 = Gt -> String.compare s2 s1 = Lt.
Proof. intros H. rewrite String.compare_antisym, H. reflexivity. Qed.

Lemma field_put k k' a l :
  field k' (put k a l) = if String.eqb k' k then Some a else field k' l.
Proof.
  induction l as [| [k1 a1] rest IH]; simpl; [reflexivity |].
  destruct (String.compare k k1) eqn:Hc; simpl.
  - apply String.compare_eq_iff in Hc. subst k1.
    now destruct (String.eqb k' k).
  - reflexivity.
  - rewrite IH. destruct (String.eqb_spec k' k) as [-> |]; [| reflexivity].
    apply compare_Gt_Lt, compare_Lt_neq in Hc.
    rewrite String.eqb_sym in Hc. now rewrite Hc.
Qed.

Lemma field_canonical k l : field k (canonical l) = field k l.
Proof.
  induction l as [| [k1 a1] rest IH]; simpl; [reflexivity |].
  now rewrite field_put, IH.
Qed.

Lemma In_put k a l x : In x (put k a l) -> x = (k, a) \/ In x l.
Proof.
  induction l as [| [k1 a1] rest IH]; simpl; [intuition (subst; auto) |].
  destruct (String.compare k k1); simpl; intuition (subst; auto).
Qed.

Lemma put_sorted k a l : StronglySorted key_lt l -> StronglySorted key_lt (put k a l).
Proof.
  induction 1 as [| [k1 a1] rest Hs IH Hall]; simpl.
  - repeat constructor.
  - destruct (String.compare k k1) eqn:Hc.
    + apply String.compare_eq_iff in Hc. subst k1. now constructor.
    + constructor; [now constructor |].
      constructor; [exact Hc |].
      eapply List.Forall_impl; [| exact Hall].
      intros y Hy. unfold key_lt in *. simpl in *. eapply compare_Lt_trans; eassumption.
    + constructor; [exact IH |].
      apply List.Forall_forall. intros x Hx.
      apply In_put in Hx as [-> | Hx].
      * now apply compare_Gt_Lt.
      * revert x Hx. now apply List.Forall_forall.
Qed.

Lemma canonical_sorted l : StronglySorted key_lt (canonical l).
Proof.
  induction l as [| [k a] rest IH]; simpl; [constructor | now apply put_sorted].
Qed.

Lemma field_below k l :
  Forall (fun y => String.compare k (fst y) = Lt) l -> field k l = None.
Proof.
  induction 1 as [| [k1 a1] rest Hlt _ IH]; simpl in *; [reflexivity |].
  now rewrite (compare_Lt_neq _ _ Hlt).
Qed.

(** A list of fields in key order is determined by what it binds. *)
Lemma sorted_fields_ext l1 l2 :
  StronglySorted key_lt l1 -> StronglySorted key_lt l2 ->
  (forall k, field k l1 = field k l2) -> l1 = l2.
Proof.
  intros Hs1. revert l2.
  induction Hs1 as [| [k1 a1] r1 Hs1 IH Hall1]; intros l2 Hs2 Hext.
  - destruct l2 as [| [k2 a2] r2]; [reflexivity |].
    specialize (Hext k2). simpl in Hext. now rewrite String.eqb_refl in Hext.
  - destruct Hs2 as [| [k2 a2] r2 Hs2 Hall2].
    + specialize (Hext k1). simpl in Hext. now rewrite String.eqb_refl in Hext.
    + unfold key_lt in *. simpl in *.
      destruct (String.compare k1 k2) eqn:Hc.
      * apply String.compare_eq_iff in Hc. subst k2.
        pose proof (Hext k1) as Hk. simpl in Hk. rewrite String.eqb_refl in Hk.
        injection Hk as <-. f_equal. apply IH; [exact Hs2 |].
        intros k. destruct (String.eqb_spec k k1) as [-> | Hne].
        -- now rewrite !field_below.
        -- specialize (Hext k). simpl in Hext.
           apply String.eqb_neq in Hne. now rewrite Hne in Hext.
      * pose proof (Hext k1) as Hk. simpl in Hk.
        rewrite String.eqb_refl, (compare_Lt_neq _ _ Hc) in Hk.
        rewrite field_below in Hk; [discriminate |].
        eapply List.Forall_impl; [| exact Hall2].
        intros y Hy. eapply compare_Lt_trans; eassumption.
      * apply compare_Gt_Lt in Hc.
        pose proof (Hext k2) as Hk. simpl in Hk.
        rewrite String.eqb_refl, (compare_Lt_neq _ _ Hc) in Hk.
        rewrite field_below in Hk; [discriminate |].
        eapply List.Forall_impl; [| exact Hall1].
        intros y Hy. eapply compare_Lt_trans; eassumption.
Qed.

Lemma canonical_ext l1 l2 :
  (forall k, field k l1 = field k l2) -> canonical l1 = canonical l2.
Proof.
  intros Hext. apply sorted_fields_ext; try apply canonical_sorted.
  intros k. now rewrite !field_canonical.
Qed.

Lemma field_Some_In k a l : field k l = Some a -> In (k, a) l.
Proof.
  induction l as [| [k1 a1] rest IH]; simpl; [discriminate |].
  destruct (String.eqb_spec k k1) as [-> |]; [intros [= ->]; now left | auto].
Qed.

Lemma field_None_not_In k a l : field k l = None -> ~ In (k, a) l.
Proof.
  induction l as [| [k1 a1] rest IH]; simpl; [tauto |].
  destruct (String.eqb_spec k k1) as [-> |]; [discriminate |].
  intros H [[= ? ?] | Hin]; [congruence | now apply IH].
Qed.

Lemma In_field_NoDup k a l : NoDup (List.map fst l) -> In (k, a) l -> field k l = Some a.
Proof.
  induction l as [| [k1 a1] rest IH]; simpl; [contradiction |].
  intros Hnd Hin. apply NoDup_cons in Hnd as [Hfresh Hnd].
  destruct Hin as [[= -> ->] | Hin]; [now rewrite String.eqb_refl |].
  destruct (String.eqb_spec k k1) as [-> |]; [| now apply IH].
  exfalso. apply Hfresh, list_elem_of_In, List.in_map_iff. now exists (k1, a).
Qed.

(** Fields with distinct keys bind the same in any order. *)
Lemma field_Permutation l1 l2 k :
  NoDup (List.map fst l1) -> Permutation l1 l2 -> field k l1 = field k l2.
Proof.
  intros Hnd Hp.
  assert (Hnd2 : NoDup (List.map fst l2)).
  { now rewrite <- (Permutation_map fst Hp). }
  destruct (field k l1) as [a |] eqn:H1.
  - symmetry. apply In_field_NoDup; [exact Hnd2 |].
    eapply Permutation_in; [exact Hp | now apply field_Some_In].
  - destruct (field k l2) as [a |] eqn:H2; [| reflexivity].
    exfalso. apply (field_None_not_In k a l1 H1).
    eapply Permutation_in; [symmetry; exact Hp | now apply field_Some_In].
Qed.
End field_lists.

Section shape_facts.
Import Fingerprint.

Lemma field_map {A B} (f : A -> B) (k : string) (l : list (string * A)) :
  field k (List.map (fun kv => (fst kv, f (snd kv))) l) = f <$> field k l.
Proof.
  induction l as [| [k1 a1] rest IH]; simpl; [reflexivity |].
  now destruct (String.eqb k k1).
Qed.

(** Payloads of the same key structure have the same shape. *)
Lemma same_structure_shape (a : value) :
  forall b, same_structure a b = true -> shape_of a = shape_of b.
Proof.
  induction a as [| | flag | z | | s | xs IH | fa IH] using value_rect';
    intros b Hsame;
    try (destruct b; simpl in Hsame; solve [reflexivity | discriminate]).
  - destruct b as [| | | | | | ys |]; simpl in Hsame; try discriminate.
    destruct xs as [| x xs], ys as [| y ys]; try discriminate; [reflexivity |].
    simpl. f_equal. f_equal. inversion IH as [| ? ? Hx _]; subst. now apply Hx.
  - destruct b as [| | | | | | | fb]; simpl in Hsame; try discriminate.
    apply andb_prop in Hsame as [Hab Hba].
    simpl. f_equal. apply canonical_ext. intros k. rewrite !field_map.
    destruct (field k fa) as [v |] eqn:Hfa; simpl.
    + apply field_Some_In in Hfa.
      pose proof (proj1 (List.forallb_forall _ fa) Hab (k, v) Hfa) as Hv. simpl in Hv.
      destruct (field k fb) as [y |]; [| discriminate]. simpl. f_equal.
      exact (proj1 (List.Forall_forall _ fa) IH (k, v) Hfa y Hv).
    + destruct (field k fb) as [y |] eqn:Hfb; [| reflexivity].
      apply field_Some_In in Hfb.
      pose proof (proj1 (List.forallb_forall _ fb) Hba (k, y) Hfb) as Hy. simpl in Hy.
      now rewrite Hfa in Hy.
Qed.

(** The shape of an object does not depend on the order of its keys. *)
Lemma shape_key_order (f1 f2 : list (string * value)) :
  NoDup (List.map fst f1) -> Permutation f1 f2 -> shape_of (VObj f1) = shape_of (VObj f2).
Proof.
  intros Hnd Hp. simpl. f_equal. apply canonical_ext. intros k.
  rewrite !field_map. f_equal. now apply field_Permutation.
Qed.
End shape_facts.

(** The fingerprint does tell apart other key names, other nesting, and an
    array from an object. *)
Example fingerprint_tells_shapes_apart :
  let fp := Fingerprint.fingerprint (fun text => text) in
  fp (VObj [("a", VNum 1)]) <> fp (VObj [("b", VNum 1)])
  /\ fp (VObj [("a", VNum 1)]) <> fp (VObj [("a", VObj [("a", VNum 1)])])
  /\ fp (VArr [VObj [("a", VNum 1)]]) <> fp (VObj [("a", VNum 1)]).
Proof. repeat split; discriminate. Qed.

(** C3.  Two payloads with the same key structure (the same key names, the
    same nesting, arrays where the other has arrays and objects where it has
    objects) have the same fingerprint, whatever their scalar values; and so
    do two objects that list the same fields in another order. *)
Theorem fingerprint_of_key_structure (hash : string -> string) :
  (forall p1 p2,
      Fingerprint.same_structure p1 p2 = true ->
      Fingerprint.fingerprint hash p1 = Fingerprint.fingerprint hash p2)
  /\ (forall f1 f2,
         NoDup (List.map fst f1) -> Permutation f1 f2 ->
         Fingerprint.fingerprint hash (VObj f1) = Fingerprint.fingerprint hash (VObj f2)).
Proof.
  unfold Fingerprint.fingerprint. split.
  - intros p1 p2 H. now rewrite (same_structure_shape p1 p2 H).
  - intros f1 f2 Hnd Hp. now rewrite (shape_key_order f1 f2 Hnd Hp).
Qed.

Lemma fingerprint_of_key_structure_witness :
  Fingerprint.fingerprint (fun text => text) pump_payload
  = Fingerprint.fingerprint (fun text => text) valve_payload
  /\ Fingerprint.fingerprint (fun text => text) (VObj [("a", VNum 1); ("b", VStr "x")])
     = Fingerprint.fingerprint (fun text => text) (VObj [("b", VStr "x"); ("a", VNum 1)]).
Proof.
  split.
  - apply (proj1 (fingerprint_of_key_structure (fun text => text))). reflexivity.
  - apply (proj2 (fingerprint_of_key_structure (fun text => text))).
    + apply NoDup_cons. split; [| apply NoDup_singleton].
      intros Hin. apply list_elem_of_singleton in Hin. discriminate.
    + apply perm_swap.
Defined.

(** * Further properties of the code *)

(** ** The two cache adapters *)

(** X1.  In the in-memory cache, reading a key after [set] gives the value
    just stored (parsed when it parses as JSON, as it is otherwise) or
    [undefined] when that value is falsy, and every other key reads as
    before; [set] answers [true]. *)
Theorem MemoryCacheImpl_get_after_set
    (JSON_parse : value -> option value) (c : store) (key key' : string) (val : value) :
  snd (MemoryCacheImpl.set c key val) = true
  /\ MemoryCacheImpl.get JSON_parse (fst (MemoryCacheImpl.set c key val)) key'
     = if decide (key' = key)
       then if truthy val then default val (JSON_parse val) else VUndefined
       else MemoryCacheImpl.get JSON_parse c key'.
Proof.
  split; [reflexivity |].
  unfold MemoryCacheImpl.get, MemoryCacheImpl.set. simpl.
  destruct (decide (key' = key)) as [-> | Hne].
  - rewrite lookup_insert_eq. destruct (truthy val); [| reflexivity].
    now destruct (JSON_parse val).
  - now rewrite lookup_insert_ne by congruence.
Qed.

(** X2.  In the in-memory cache, [del] answers [true] whether or not the key
    was there; afterwards the key reads [undefined] and every other key reads
    as before; deleting a key that is not there leaves the store as it is;
    after [flush] every key reads [undefined]. *)
Theorem MemoryCacheImpl_get_after_del
    (JSON_parse : value -> option value) (c : store) (key key' : string) :
  snd (MemoryCacheImpl.del c key) = true
  /\ MemoryCacheImpl.get JSON_parse (fst (MemoryCacheImpl.del c key)) key'
     = (if decide (key' = key) then VUndefined else MemoryCacheImpl.get JSON_parse c key')
  /\ (c !! key = None -> fst (MemoryCacheImpl.del c key) = c)
  /\ MemoryCacheImpl.get JSON_parse (fst (MemoryCacheImpl.flush c)) key' = VUndefined.
Proof.
  split; [reflexivity |]. split; [| split].
  - unfold MemoryCacheImpl.get, MemoryCacheImpl.del. simpl.
    destruct (decide (key' = key)) as [-> | Hne].
    + now rewrite lookup_delete_eq.
    + now rewrite lookup_delete_ne by congruence.
  - intros H. simpl. now apply delete_id.
  - unfold MemoryCacheImpl.get, MemoryCacheImpl.flush. simpl. now rewrite lookup_empty.
Qed.

Lemma MemoryCacheImpl_get_after_del_witness :
  fst (MemoryCacheImpl.del (∅ : store) "k") = ∅.
Proof.
  apply (MemoryCacheImpl_get_after_del (fun _ => None) ∅ "k" "k"). apply lookup_empty.
Defined.

(** X3.  The Redis cache hands back what was stored, falsy values included:
    for a value that [JSON.parse] reads back from its [JSON.stringify] text,
    [get] after [set] is that value.  For a falsy value other than
    [undefined] the two adapters therefore disagree: the in-memory cache
    answers [undefined] where Redis answers the value. *)
Theorem RedisCacheImpl_get_after_set
    (JSON_parse : value -> option value) (JSON_stringify : value -> string)
    (r : RedisCacheImpl.server) (c : store) (key : string) (val : value) :
  JSON_parse (VStr (JSON_stringify val)) = Some val ->
  RedisCacheImpl.get JSON_parse (fst (RedisCacheImpl.set JSON_stringify r key val)) key = val
  /\ (truthy val = false -> val <> VUndefined ->
      MemoryCacheImpl.get JSON_parse (fst (MemoryCacheImpl.set c key val)) key
      <> RedisCacheImpl.get JSON_parse
           (fst (RedisCacheImpl.set JSON_stringify r key val)) key).
Proof.
  intros Hback.
  assert (Hredis : RedisCacheImpl.get JSON_parse
                     (fst (RedisCacheImpl.set JSON_stringify r key val)) key = val).
  { unfold RedisCacheImpl.get, RedisCacheImpl.set. simpl.
    now rewrite lookup_insert_eq, Hback. }
  split; [exact Hredis |].
  intros Hfalsy Hdef. rewrite Hredis.
  unfold MemoryCacheImpl.get, MemoryCacheImpl.set. simpl.
  rewrite lookup_insert_eq, Hfalsy. simpl. congruence.
Qed.

Lemma RedisCacheImpl_get_after_set_witness :
  Forall (fun val =>
            RedisCacheImpl.get literal_parse
              (fst (RedisCacheImpl.set literal_stringify ∅ "k" val)) "k" = val
            /\ MemoryCacheImpl.get literal_parse (fst (MemoryCacheImpl.set ∅ "k" val)) "k"
               <> val)
         [VNum 0; VBool false; VNull].
Proof.
  repeat constructor;
    match goal with
    | |- RedisCacheImpl.get _ _ _ = ?val =>
        apply (RedisCacheImpl_get_after_set literal_parse literal_stringify ∅ ∅ "k" val);
        reflexivity
    | |- MemoryCacheImpl.get _ _ _ <> ?val =>
        pose proof (RedisCacheImpl_get_after_set literal_parse literal_stringify ∅ ∅ "k" val
                      eq_refl) as [Hredis Hdiffer];
        rewrite Hredis in Hdiffer; apply Hdiffer; [reflexivity | discriminate]
    end.
Defined.

(** X4.  In the Redis cache a key that was never set reads [undefined],
    [del] answers [true] whether or not the key was there, and after [del]
    the key reads [undefined] while every other key reads as before. *)
Theorem RedisCacheImpl_get_after_del
    (JSON_parse : value -> option value) (r : RedisCacheImpl.server) (key key' : string) :
  snd (RedisCacheImpl.del r key) = true
  /\ RedisCacheImpl.get JSON_parse (fst (RedisCacheImpl.del r key)) key'
     = (if decide (key' = key) then VUndefined else RedisCacheImpl.get JSON_parse r key')
  /\ RedisCacheImpl.get JSON_parse ∅ key' = VUndefined.
Proof.
  split; [| split].
  - unfold RedisCacheImpl.del. simpl. now destruct (r !! key).
  - unfold RedisCacheImpl.get, RedisCacheImpl.del. simpl.
    destruct (decide (key' = key)) as [-> | Hne].
    + now rewrite lookup_delete_eq.
    + now rewrite lookup_delete_ne by congruence.
  - unfold RedisCacheImpl.get. now rewrite lookup_empty.
Qed.
(** ** Saving, finding, deleting and archiving one key *)

Section single_key_facts.
Import MetatypeKey.
Variable E : Collaborators.

Lemma run_direct {A} (stmt : Statement) (effect : table -> option (table * A))
    (d : Database) (out : table * A) :
  db_error E stmt = None -> effect (committed d) = Some out ->
  Mapper.run E stmt false effect d
  = (Success (snd out), {| committed := fst out; in_flight := in_flight d |}).
Proof. intros H Hout. unfold Mapper.run. rewrite H, Hout. now destruct out. Qed.

Lemma run_direct_failure {A} (stmt : Statement) (effect : table -> option (table * A))
    (d d' : Database) (e : string) (code : nat) :
  Mapper.run E stmt false effect d = (Failure e code, d') -> d' = d.
Proof.
  unfold Mapper.run. destruct (db_error E stmt); [now intros [= _ _ <-] |].
  destruct (effect (committed d)) as [[] |]; [discriminate | now intros [= _ _ <-]].
Qed.

Lemma Retrieve_found (i : string) (z : Z) (d : Database) (row : KeyRow.t) :
  db_error E RetrieveStatement = None -> bigint E i = Some z -> committed d !! z = Some row ->
  MetatypeKeyMapper.Retrieve E i d = Success (MetatypeKeyMapper.of_row z row).
Proof.
  intros He Hz Hrow. unfold MetatypeKeyMapper.Retrieve, Mapper.retrieve.
  now rewrite He, Hz; simpl; rewrite Hrow.
Qed.

Lemma Retrieve_missing (i : string) (z : Z) (d : Database) :
  bigint E i = Some z -> committed d !! z = None ->
  isError (MetatypeKeyMapper.Retrieve E i d) = true.
Proof.
  intros Hz Hrow. unfold MetatypeKeyMapper.Retrieve, Mapper.retrieve.
  destruct (db_error E RetrieveStatement); [reflexivity |].
  now rewrite Hz; simpl; rewrite Hrow.
Qed.

Lemma fullUpdateStatement_single (userID : option string) (key : t) (old row : KeyRow.t)
    (tbl : table) (z : Z) :
  MetatypeKeyMapper.named_row E key = Some (Some z) -> tbl !! z = Some old ->
  MetatypeKeyMapper.updated_row E userID old key = Some row ->
  MetatypeKeyMapper.fullUpdateStatement E userID [key] tbl
  = Some (<[z := row]> tbl, [MetatypeKeyMapper.of_row z row]).
Proof.
  intros Hz Hold Hrow. unfold MetatypeKeyMapper.fullUpdateStatement. simpl.
  rewrite Hz. simpl. rewrite Hold, Hrow. reflexivity.
Qed.

Lemma update_rows_dom (userID : option string) (keys : list t) (seen : list Z)
    (tbl tbl' : table) (objs : list t) :
  MetatypeKeyMapper.update_rows E userID keys seen tbl = Some (tbl', objs) ->
  dom tbl' = dom tbl.
Proof.
  intros Hrun. apply set_eq. intros j. rewrite !elem_of_dom, <- !not_eq_None_Some.
  now rewrite (update_rows_None E userID _ _ _ _ _ j Hrun).
Qed.

(** The key object that [save] sends to the update names the row that the
    caller's object names. *)
Lemma named_row_assign (original m : t) (i : string) :
  has_id m = Some i ->
  MetatypeKeyMapper.named_row E (assign original m) = Some <$> bigint E i.
Proof.
  intros H. apply has_id_Some in H as [H _].
  unfold MetatypeKeyMapper.named_row. simpl. now rewrite H.
Qed.
End single_key_facts.

(** X5.  A [save] that fails has written nothing: the database is as it was
    and the key object is unchanged; when the failure is a validation
    failure the cache is untouched too. *)
Theorem save_failure_writes_nothing
    (E : Collaborators) (m : MetatypeKey.t) (user : User) (w : World) :
  let out := MetatypeKeyRepository.save E m user w in
  (isError (fst (fst out)) = true -> db (snd out) = db w /\ snd (fst out) = m)
  /\ (validationErrors E m <> None -> isError (fst (fst out)) = true /\ snd out = w).
Proof.
  cbv zeta. unfold MetatypeKeyRepository.save.
  destruct (validationErrors E m) as [errors |]; [now repeat split |].
  split; [| congruence].
  destruct (MetatypeKey.has_id m) as [i |].
  - destruct (MetatypeKeyRepository.findByID E i w) as [original | e code];
      [| now repeat split].
    destruct (MetatypeKeyMapper.Update E (user_id user) _ false (db w))
      as [[updated | e code] d] eqn:Hrun; simpl; [discriminate |].
    intros _. split; [| reflexivity]. now apply run_direct_failure in Hrun.
  - destruct (MetatypeKeyMapper.Create E (user_id user) m false (db w))
      as [[created | e code] d] eqn:Hrun; simpl; [discriminate |].
    intros _. split; [| reflexivity]. now apply run_direct_failure in Hrun.
Qed.

Lemma save_failure_writes_nothing_witness :
  let out := MetatypeKeyRepository.save database_down (sample_key Absent "10" "b") sample_user
               world_with_key in
  db (snd out) = db world_with_key
  /\ snd (MetatypeKeyRepository.save sample_collaborators (sample_key Absent "10" "")
            sample_user world_with_key) = world_with_key.
Proof.
  split.
  - apply (save_failure_writes_nothing database_down (sample_key Absent "10" "b") sample_user
             world_with_key).
    reflexivity.
  - apply (save_failure_writes_nothing sample_collaborators (sample_key Absent "10" "")
             sample_user world_with_key).
    discriminate.
Defined.

(** X6.  [save] of a key that carries an id never inserts and never removes
    a row, whatever it answers: the stored ids are the same afterwards.
    When the id reads as an id that no stored row has, the database and the
    key object are left exactly as they were; the parent's key list has
    been dropped from the cache all the same. *)
Theorem save_unknown_id_writes_nothing
    (E : Collaborators) (m : MetatypeKey.t) (user : User) (w : World) (i : string) :
  validationErrors E m = None ->
  MetatypeKey.has_id m = Some i ->
  let out := MetatypeKeyRepository.save E m user w in
  dom (committed (db (snd out))) = dom (committed (db w))
  /\ (forall z, bigint E i = Some z -> committed (db w) !! z = None ->
                db (snd out) = db w /\ snd (fst out) = m)
  /\ cache (snd out)
       !! MetatypeKeyRepository.keys_slot E (read (MetatypeKey.metatype_id m)) = None.
Proof.
  intros Hv Hid. cbv zeta. split; [| split].
  - unfold MetatypeKeyRepository.save. rewrite Hv, Hid.
    destruct (MetatypeKeyRepository.findByID E i w) as [original | e code];
      [| reflexivity].
    unfold MetatypeKeyMapper.Update, Mapper.run.
    destruct (db_error E UpdateStatement); [reflexivity |].
    destruct (MetatypeKeyMapper.fullUpdateStatement E (user_id user)
                [MetatypeKey.assign original m] (committed (db w)))
      as [[tbl' objs] |] eqn:Hrun; simpl; [| reflexivity].
    now apply update_rows_dom in Hrun.
  - intros z Hz Hrow. unfold MetatypeKeyRepository.save. rewrite Hv, Hid.
    pose proof (Retrieve_missing E i z (db w) Hz Hrow) as Hmiss.
    unfold MetatypeKeyRepository.findByID.
    now destruct (MetatypeKeyMapper.Retrieve E i (db w)).
  - rewrite save_cache by exact Hv. apply clear_parent_keys_slot.
Qed.

Lemma save_unknown_id_writes_nothing_witness :
  let out := MetatypeKeyRepository.save sample_collaborators (sample_key (Val "7") "10" "x")
               sample_user world_with_key in
  db (snd out) = db world_with_key
  /\ cache (snd out) !! "metatypes:10:keys" = None.
Proof.
  destruct (save_unknown_id_writes_nothing sample_collaborators
              (sample_key (Val "7") "10" "x") sample_user world_with_key "7"
              eq_refl eq_refl) as (_ & Hsame & Hcache).
  split; [| exact Hcache].
  apply (Hsame 7%Z); reflexivity.
Defined.

(** X7.  [save] of a valid key without an id, whose row can be written, on a
    database that accepts the insert, answers success, stores the row under
    an id no row had, keeps every row that was there, and hands the new row
    back into the key object, which so gets the text of the new id;
    [findByID] of that text then answers the new row, provided the database
    reads the text back as the id. *)
Theorem save_then_findByID
    (E : Collaborators) (m : MetatypeKey.t) (user : User) (w : World) (row : KeyRow.t) :
  validationErrors E m = None ->
  MetatypeKey.has_id m = None ->
  db_error E CreateStatement = None ->
  db_error E RetrieveStatement = None ->
  MetatypeKeyMapper.created_row E (user_id user) m = Some row ->
  let out := MetatypeKeyRepository.save E m user w in
  exists i,
    committed (db w) !! i = None
    /\ fst (fst out) = Success true
    /\ snd (fst out) = MetatypeKey.assign m (MetatypeKeyMapper.of_row i row)
    /\ MetatypeKey.id (snd (fst out)) = Val (pretty i)
    /\ committed (db (snd out)) !! i = Some row
    /\ (bigint E (pretty i) = Some i ->
        MetatypeKeyRepository.findByID E (pretty i) (snd out)
        = Success (MetatypeKeyMapper.of_row i row))
    /\ (forall j old, committed (db w) !! j = Some old ->
                      committed (db (snd out)) !! j = Some old).
Proof.
  intros Hv Hid Hc Hr Hrow. cbv zeta.
  set (i := fresh (dom (committed (db w)))).
  assert (Hfree : committed (db w) !! i = None) by (apply not_elem_of_dom, is_fresh).
  exists i. split; [exact Hfree |].
  unfold MetatypeKeyRepository.save. rewrite Hv, Hid.
  unfold MetatypeKeyMapper.Create.
  rewrite (run_direct E _ _ _ (<[i := row]> (committed (db w)),
                                Some (MetatypeKeyMapper.of_row i row)))
    by (try exact Hc; simpl; now rewrite Hrow).
  simpl. repeat split.
  - apply lookup_insert_eq.
  - intros Hback. unfold MetatypeKeyRepository.findByID. simpl.
    apply Retrieve_found; [exact Hr | exact Hback |]. simpl. apply lookup_insert_eq.
  - intros j old Hj. rewrite lookup_insert_ne; [exact Hj |]. intros <-. congruence.
Qed.

Lemma save_then_findByID_witness :
  let out := MetatypeKeyRepository.save sample_collaborators (sample_key Absent "010" "b")
               sample_user world_with_key in
  exists i row,
    KeyRow.metatype_id row = Some 10%Z
    /\ fst (fst out) = Success true
    /\ MetatypeKey.id (snd (fst out)) = Val (pretty i)
    /\ committed (db (snd out)) !! i = Some row
    /\ MetatypeKey.metatype_id (snd (fst out)) = Val "10".
Proof.
  intros out.
  set (row := {| KeyRow.metatype_id := Some 10%Z; KeyRow.container_id := Some 1%Z;
                 KeyRow.name := "b"; KeyRow.description := ""; KeyRow.property_name := "b";
                 KeyRow.required := false; KeyRow.data_type := "string";
                 KeyRow.options := None; KeyRow.default_value := None; KeyRow.validation := None;
                 KeyRow.created_by := Some "42"; KeyRow.modified_by := Some "42";
                 KeyRow.deleted_at := false |}).
  destruct (save_then_findByID sample_collaborators (sample_key Absent "010" "b") sample_user
              world_with_key row eq_refl eq_refl eq_refl eq_refl)
    as (i & _ & Hok & Hobj & Hi & Hrow & _).
  - vm_compute. reflexivity.
  - exists i, row.
    split; [reflexivity |]. split; [exact Hok |]. split; [exact Hi |].
    split; [exact Hrow |]. unfold out. now rewrite Hobj.
Defined.

Lemma updated_row_Some (E : Collaborators) (userID : option string) (old row : KeyRow.t)
    (key : MetatypeKey.t) :
  MetatypeKeyMapper.updated_row E userID old key = Some row ->
  MetatypeKeyMapper.to_bigint E (MetatypeKeyMapper.literal (MetatypeKey.metatype_id key))
  = Some (KeyRow.metatype_id row)
  /\ MetatypeKeyMapper.to_bigint E (MetatypeKeyMapper.literal (MetatypeKey.container_id key))
     = Some (KeyRow.container_id row)
  /\ KeyRow.name row = MetatypeKey.name key
  /\ KeyRow.options row = MetatypeKeyMapper.stringify (MetatypeKey.options key)
  /\ KeyRow.created_by row = KeyRow.created_by old
  /\ KeyRow.modified_by row = userID
  /\ KeyRow.deleted_at row = KeyRow.deleted_at old.
Proof.
  unfold MetatypeKeyMapper.updated_row.
  destruct (MetatypeKeyMapper.to_bigint E
              (MetatypeKeyMapper.literal (MetatypeKey.metatype_id key))) as [metatype |];
    simpl; [| discriminate].
  destruct (MetatypeKeyMapper.to_bigint E
              (MetatypeKeyMapper.literal (MetatypeKey.container_id key))) as [container |];
    simpl; [| discriminate].
  intros [= <-]. now repeat split.
Qed.

(** X8.  [save] of a valid key with an id that reads as the id of a stored
    row, on a database that accepts the statements, merges the key object
    into the fetched original with [Object.assign] and rewrites the row from
    the merged object; the returned row is handed back into the key object.
    The row takes the name, and the like, of the key object; creator and
    archived flag stay, the user becomes the modifier, and no other row
    changes.  A column whose property the key object does not carry is
    written back from what was fetched: the metatype stays, and a jsonb
    column that was NULL becomes the JSON value [null].  A property that the
    key object carries as [undefined] or [null] replaces the fetched one, so
    that such a [metatype_id] is written as NULL. *)
Theorem save_merges_into_original
    (E : Collaborators) (m : MetatypeKey.t) (user : User) (w : World) (i : string) (z : Z)
    (old row : KeyRow.t) :
  validationErrors E m = None ->
  MetatypeKey.has_id m = Some i ->
  bigint E i = Some z ->
  committed (db w) !! z = Some old ->
  db_error E RetrieveStatement = None ->
  db_error E UpdateStatement = None ->
  MetatypeKeyMapper.updated_row E (user_id user) old
    (MetatypeKey.assign (MetatypeKeyMapper.of_row z old) m) = Some row ->
  let out := MetatypeKeyRepository.save E m user w in
  fst (fst out) = Success true
  /\ snd (fst out) = MetatypeKey.assign m (MetatypeKeyMapper.of_row z row)
  /\ committed (db (snd out)) !! z = Some row
  /\ (forall j, j <> z -> committed (db (snd out)) !! j = committed (db w) !! j)
  /\ KeyRow.name row = MetatypeKey.name m
  /\ KeyRow.created_by row = KeyRow.created_by old
  /\ KeyRow.modified_by row = user_id user
  /\ KeyRow.deleted_at row = KeyRow.deleted_at old
  /\ KeyRow.options row
     = MetatypeKeyMapper.stringify
         (assign_property (MetatypeKeyMapper.from_jsonb (KeyRow.options old))
            (MetatypeKey.options m))
  /\ (MetatypeKey.options m = Absent -> KeyRow.options old = None ->
      KeyRow.options row = Some "null")
  /\ (MetatypeKey.metatype_id m = Absent ->
      forall metatype, KeyRow.metatype_id old = Some metatype ->
                       bigint E (pretty metatype) = Some metatype ->
                       KeyRow.metatype_id row = Some metatype)
  /\ (MetatypeKey.metatype_id m = Undefined \/ MetatypeKey.metatype_id m = Null ->
      KeyRow.metatype_id row = None).
Proof.
  intros Hv Hid Hz Hold Hr Hu Hrow. cbv zeta.
  unfold MetatypeKeyRepository.save. rewrite Hv, Hid.
  unfold MetatypeKeyRepository.findByID.
  rewrite (Retrieve_found E i z (db w) old Hr Hz Hold).
  unfold MetatypeKeyMapper.Update.
  assert (Hnamed : MetatypeKeyMapper.named_row E
                     (MetatypeKey.assign (MetatypeKeyMapper.of_row z old) m)
                   = Some (Some z)).
  { now rewrite (named_row_assign E _ m i Hid), Hz. }
  rewrite (run_direct E _ _ _ (<[z := row]> (committed (db w)),
                                Some (MetatypeKeyMapper.of_row z row)))
    by (try exact Hu;
        now rewrite (fullUpdateStatement_single E _ _ old row _ z Hnamed Hold Hrow)).
  apply updated_row_Some in Hrow as (Hmeta & _ & Hname & Hopt & Hcre & Hmod & Hdel).
  simpl in *. split; [reflexivity |]. split; [reflexivity |].
  split; [apply lookup_insert_eq |].
  split; [intros j Hj; apply lookup_insert_ne; congruence |].
  repeat split; try assumption.
  - intros Ha Hnull. rewrite Hopt, Ha, Hnull. reflexivity.
  - intros Ha metatype Hm Hback. rewrite Ha, Hm in Hmeta. simpl in Hmeta.
    rewrite Hback in Hmeta. simpl in Hmeta. congruence.
  - intros [Ha | Ha]; rewrite Ha in Hmeta; simpl in Hmeta; congruence.
Qed.

Lemma save_merges_into_original_witness :
  let m := {| MetatypeKey.id := Val "01"; MetatypeKey.metatype_id := Absent;
              MetatypeKey.container_id := Absent; MetatypeKey.name := "renamed";
              MetatypeKey.description := ""; MetatypeKey.property_name := "a";
              MetatypeKey.required := true; MetatypeKey.data_type := "string";
              MetatypeKey.options := Absent; MetatypeKey.default_value := Absent;
              MetatypeKey.validation := Absent; MetatypeKey.created_by := Absent;
              MetatypeKey.modified_by := Absent; MetatypeKey.deleted_at := Absent |} in
  let out := MetatypeKeyRepository.save sample_collaborators m sample_user world_with_key in
  exists row,
    committed (db (snd out)) !! 1%Z = Some row
    /\ KeyRow.metatype_id row = Some 10%Z
    /\ KeyRow.name row = "renamed"
    /\ KeyRow.options row = Some "null".
Proof.
  intros m out.
  set (row := {| KeyRow.metatype_id := Some 10%Z; KeyRow.container_id := Some 1%Z;
                 KeyRow.name := "renamed"; KeyRow.description := ""; KeyRow.property_name := "a";
                 KeyRow.required := true; KeyRow.data_type := "string";
                 KeyRow.options := Some "null"; KeyRow.default_value := Some "null";
                 KeyRow.validation := Some "null";
                 KeyRow.created_by := None; KeyRow.modified_by := Some "42";
                 KeyRow.deleted_at := false |}).
  destruct (save_merges_into_original sample_collaborators m sample_user world_with_key
              "01" 1%Z (sample_row 10 "a") row
              eq_refl eq_refl eq_refl ltac:(vm_compute; reflexivity) eq_refl eq_refl
              ltac:(vm_compute; reflexivity))
    as (_ & _ & Hrow & _).
  exists row. now repeat split.
Defined.

(** X9.  [delete] of a key with an id that the database reads as a bigint,
    when the statement is accepted, answers success whether or not a row has
    that id; afterwards no row has it, every other row is as it was, and
    when no row had the id the table is unchanged. *)
Theorem delete_removes_row
    (E : Collaborators) (k : MetatypeKey.t) (w : World) (i : string) (z : Z) :
  MetatypeKey.has_id k = Some i ->
  bigint E i = Some z ->
  db_error E DeleteStatement = None ->
  let out := MetatypeKeyRepository.delete E k w in
  fst out = Success true
  /\ committed (db (snd out)) !! z = None
  /\ (forall j, j <> z -> committed (db (snd out)) !! j = committed (db w) !! j)
  /\ (committed (db w) !! z = None -> committed (db (snd out)) = committed (db w)).
Proof.
  intros Hid Hz Hd. cbv zeta. unfold MetatypeKeyRepository.delete. rewrite Hid.
  unfold MetatypeKeyMapper.Delete.
  rewrite (run_direct E _ _ _ (delete z (committed (db w)), true))
    by (try exact Hd; now rewrite Hz).
  simpl. split; [reflexivity |]. split; [| split].
  - apply lookup_delete_eq.
  - intros j Hj. apply lookup_delete_ne. congruence.
  - intros Hnone. now apply delete_id.
Qed.

Lemma delete_removes_row_witness :
  let out := MetatypeKeyRepository.delete sample_collaborators
               (sample_key (Val "01") "10" "a") world_with_key in
  fst out = Success true /\ committed (db (snd out)) !! 1%Z = None.
Proof.
  intros out.
  destruct (delete_removes_row sample_collaborators (sample_key (Val "01") "10" "a")
              world_with_key "01" 1%Z eq_refl eq_refl eq_refl) as (Hok & Hgone & _).
  split; [exact Hok | exact Hgone].
Defined.

(** X10.  [archive] is a soft delete and [unarchive] undoes it: after
    [archive] of a stored key the row is still found, flagged as archived,
    with the key columns it had; after [unarchive] the flag is cleared again;
    both record the user as modifier, change no other column and no other
    row. *)
Theorem archive_then_unarchive
    (E : Collaborators) (user user' : User) (k : MetatypeKey.t) (old : KeyRow.t) (w : World)
    (i : string) (z : Z) :
  MetatypeKey.has_id k = Some i ->
  bigint E i = Some z ->
  committed (db w) !! z = Some old ->
  db_error E ArchiveStatement = None ->
  db_error E UnarchiveStatement = None ->
  db_error E RetrieveStatement = None ->
  let archived := MetatypeKeyRepository.archive E user k w in
  let restored := MetatypeKeyRepository.unarchive E user' k (snd archived) in
  fst archived = Success true
  /\ MetatypeKeyRepository.findByID E i (snd archived)
     = Success (MetatypeKeyMapper.of_row z
                  (MetatypeKeyMapper.archived_row true (user_id user) old))
  /\ same_columns (MetatypeKeyMapper.archived_row true (user_id user) old) old
  /\ fst restored = Success true
  /\ MetatypeKeyRepository.findByID E i (snd restored)
     = Success (MetatypeKeyMapper.of_row z
                  (MetatypeKeyMapper.archived_row false (user_id user') old))
  /\ (forall j, j <> z -> committed (db (snd restored)) !! j = committed (db w) !! j).
Proof.
  intros Hid Hz Hold Ha Hu Hr. cbv zeta.
  unfold MetatypeKeyRepository.archive, MetatypeKeyRepository.unarchive. rewrite Hid.
  unfold MetatypeKeyMapper.Archive.
  rewrite (run_direct E _ _ _
             (alter (MetatypeKeyMapper.archived_row true (user_id user)) z
                (committed (db w)), true))
    by (try exact Ha; now rewrite Hz).
  simpl. unfold MetatypeKeyMapper.Unarchive.
  rewrite (run_direct E _ _ _
             (alter (MetatypeKeyMapper.archived_row false (user_id user')) z
                (alter (MetatypeKeyMapper.archived_row true (user_id user)) z
                   (committed (db w))), true))
    by (try exact Hu; simpl; now rewrite Hz).
  simpl. unfold MetatypeKeyRepository.findByID. simpl.
  split; [reflexivity |]. split; [| split; [| split; [| split]]].
  - apply (Retrieve_found E i z); [exact Hr | exact Hz |]. simpl.
    now rewrite lookup_alter_eq, Hold.
  - now repeat split.
  - reflexivity.
  - apply (Retrieve_found E i z); [exact Hr | exact Hz |]. simpl.
    now rewrite !lookup_alter_eq, Hold.
  - intros j Hj. rewrite !lookup_alter_ne by congruence. reflexivity.
Qed.

Lemma archive_then_unarchive_witness :
  let k := sample_key (Val "1") "10" "a" in
  let archived := MetatypeKeyRepository.archive sample_collaborators sample_user k
                    world_with_key in
  let restored := MetatypeKeyRepository.unarchive sample_collaborators sample_user k
                    (snd archived) in
  MetatypeKeyRepository.findByID sample_collaborators "1" (snd archived)
  = Success (MetatypeKeyMapper.of_row 1
               (MetatypeKeyMapper.archived_row true (Some "42") (sample_row 10 "a")))
  /\ MetatypeKeyRepository.findByID sample_collaborators "1" (snd restored)
     = Success (MetatypeKeyMapper.of_row 1
                  (MetatypeKeyMapper.archived_row false (Some "42") (sample_row 10 "a"))).
Proof.
  intros k archived restored.
  destruct (archive_then_unarchive sample_collaborators sample_user sample_user k
              (sample_row 10 "a") world_with_key "1" 1%Z eq_refl eq_refl
              ltac:(vm_compute; reflexivity) eq_refl eq_refl eq_refl)
    as (_ & Harchived & _ & _ & Hrestored & _).
  split; [exact Harchived | exact Hrestored].
Defined.

(** ** The key-list cache *)

(** X11.  After a miss that the mapper answers with keys, the next
    [listForMetatype] for the same metatype is answered from the cache with
    the same keys, whatever has happened to the database in between, changed
    or unreachable, provided the serialized list reads back as the list. *)
Theorem listForMetatype_second_call_is_cached
    (E E' : Collaborators) (metatypeID : string) (w : World) (keys : list MetatypeKey.t)
    (d' : Database) :
  MetatypeKeyRepository.getCachedForMetatype E metatypeID (cache w) = None ->
  MetatypeKeyMapper.ListForMetatype E metatypeID (db w) = Success keys ->
  reads_back E keys ->
  JSON_parse E' = JSON_parse E ->
  plainToClass E' = plainToClass E ->
  MetatypeMapper_tableName E' = MetatypeMapper_tableName E ->
  let w1 := snd (MetatypeKeyRepository.listForMetatype E metatypeID w) in
  let later := {| db := d'; cache := cache w1 |} in
  MetatypeKeyRepository.listForMetatype E' metatypeID later = (Success keys, later).
Proof.
  intros Hmiss Hlist (Htext & Hcached & Hkeys) Hparse Hplain Hname. cbv zeta.
  apply listForMetatype_hit.
  unfold MetatypeKeyRepository.listForMetatype. rewrite Hmiss, Hlist. simpl.
  unfold MetatypeKeyRepository.getCachedForMetatype, MemoryCacheImpl.get,
    MetatypeKeyRepository.keys_slot.
  rewrite Hparse, Hplain, Hname, lookup_insert_eq, Htext. simpl.
  destruct (JSON_parse E (VStr (serialize E keys))); now rewrite Hcached, Hkeys.
Qed.

Lemma listForMetatype_second_call_is_cached_witness :
  let w := {| db := db world_with_key; cache := ∅ |} in
  let w1 := snd (MetatypeKeyRepository.listForMetatype reading_collaborators "10" w) in
  let later := {| db := db empty_world; cache := cache w1 |} in
  MetatypeKeyRepository.listForMetatype database_down "10" later
  = (Success [stored_key], later).
Proof.
  intros w w1 later.
  apply (listForMetatype_second_call_is_cached reading_collaborators database_down "10" w
           [stored_key] (db empty_world));
    try reflexivity.
  repeat split.
Defined.

(** X12.  After a [save] that passed validation, [listForMetatype] for the
    metatype the key names does not answer from the cache: its answer is the
    mapper's answer on the database as [save] left it. *)
Theorem save_then_listForMetatype
    (E : Collaborators) (m : MetatypeKey.t) (user : User) (w : World) (metatypeID : string) :
  validationErrors E m = None ->
  MetatypeKey.metatype_id m = Val metatypeID ->
  let w' := snd (MetatypeKeyRepository.save E m user w) in
  fst (MetatypeKeyRepository.listForMetatype E metatypeID w')
  = MetatypeKeyMapper.ListForMetatype E metatypeID (db w').
Proof.
  intros Hv Hm. cbv zeta. apply listForMetatype_miss.
  unfold MetatypeKeyRepository.getCachedForMetatype, MemoryCacheImpl.get.
  rewrite save_cache by exact Hv.
  pose proof (clear_parent_keys_slot E m (cache w)) as Hslot. rewrite Hm in Hslot.
  simpl in Hslot. now rewrite Hslot.
Qed.

Lemma save_then_listForMetatype_witness :
  let m := sample_key (Val "1") "10" "renamed" in
  let w' := snd (MetatypeKeyRepository.save sample_collaborators m sample_user
                   world_with_key) in
  fst (MetatypeKeyRepository.listForMetatype sample_collaborators "10" w')
  = MetatypeKeyMapper.ListForMetatype sample_collaborators "10" (db w').
Proof.
  apply (save_then_listForMetatype sample_collaborators
           (sample_key (Val "1") "10" "renamed") sample_user world_with_key "10");
    reflexivity.
Defined.

Lemma string_length_app (s t : string) :
  String.length (s ++ t)%string = String.length s + String.length t.
Proof. induction s as [| a s IH]; simpl; [reflexivity | now rewrite IH]. Qed.

Lemma string_app_inv_tail (s1 s2 t : string) : (s1 ++ t = s2 ++ t)%string -> s1 = s2.
Proof.
  revert s2. induction s1 as [| a s1 IH]; intros [| b s2] H; simpl in H.
  - reflexivity.
  - apply (f_equal String.length) in H. simpl in H.
    rewrite ?string_length_app in H. simpl in H. lia.
  - apply (f_equal String.length) in H. simpl in H.
    rewrite ?string_length_app in H. simpl in H. lia.
  - injection H as -> H. f_equal. now apply IH.
Qed.

(** X13.  Metatypes have cache slots of their own: two metatype ids share
    the key-list slot only when they are the same id, so that dropping the
    key list of one metatype leaves the cached key list of every other
    metatype in place. *)
Theorem key_list_slots_are_separate
    (E : Collaborators) (a b : string) (containerID : value) (c : store) :
  a <> b ->
  MetatypeKeyRepository.keys_slot E (VStr a) <> MetatypeKeyRepository.keys_slot E (VStr b)
  /\ MetatypeKeyRepository.getCachedForMetatype E b
       (fst (MetatypeKeyRepository.deleteCachedForMetatype E (VStr a) containerID c))
     = MetatypeKeyRepository.getCachedForMetatype E b c.
Proof.
  intros Hab.
  assert (Hslots : MetatypeKeyRepository.keys_slot E (VStr a)
                   <> MetatypeKeyRepository.keys_slot E (VStr b)).
  { unfold MetatypeKeyRepository.keys_slot. simpl. intros H.
    apply String.app_inj in H. apply (String.app_inj ":") in H.
    now apply string_app_inv_tail in H. }
  split; [exact Hslots |].
  unfold MetatypeKeyRepository.getCachedForMetatype,
    MetatypeKeyRepository.deleteCachedForMetatype, MemoryCacheImpl.get, MemoryCacheImpl.del.
  simpl. now rewrite lookup_delete_ne by exact Hslots.
Qed.

Lemma key_list_slots_are_separate_witness :
  MetatypeKeyRepository.getCachedForMetatype reading_collaborators "10"
    (fst (MetatypeKeyRepository.deleteCachedForMetatype reading_collaborators (VStr "20")
            VUndefined (cache world_with_key)))
  = MetatypeKeyRepository.getCachedForMetatype reading_collaborators "10"
      (cache world_with_key).
Proof.
  apply (key_list_slots_are_separate reading_collaborators "20" "10" VUndefined
           (cache world_with_key)).
  discriminate.
Defined.

(** ** More on the bulk save *)

(** X14.  [bulkSave] of the empty list changes no row and no cache entry; it
    still opens and commits a transaction, and fails exactly when the
    transaction cannot be started or committed. *)
Theorem bulkSave_of_nothing (E : Collaborators) (user : User) (w : World) :
  let out := MetatypeKeyRepository.bulkSave E user [] w in
  committed (db (snd out)) = committed (db w)
  /\ cache (snd out) = cache w
  /\ snd (fst out) = []
  /\ (isError (fst (fst out)) = true
      <-> db_error E StartTransaction <> None \/ db_error E CompleteTransaction <> None).
Proof.
  cbv zeta. rewrite (bulkSave_valid E user [] w (List.Forall_nil _)). simpl.
  destruct (db_error E StartTransaction) as [e0 |];
    [| destruct (db_error E CompleteTransaction) as [e1 |]]; simpl;
    repeat split; try tauto; try discriminate; auto;
    try (intros [H | H]; congruence).
Qed.

(** X15.  [bulkSave] hands the returned rows to the key objects by position,
    rows of updated keys first and rows of created keys after them.  So for a
    list that names a new key before a stored one, the object of the new key
    comes back with the id of the stored row and the object of the stored key
    with the id of the newly inserted row. *)
Theorem bulkSave_results_by_position
    (E : Collaborators) (user : User) (new existing : MetatypeKey.t) (w : World)
    (i : string) (z : Z) (old updated created : KeyRow.t) :
  validationErrors E new = None ->
  validationErrors E existing = None ->
  MetatypeKey.has_id new = None ->
  MetatypeKey.has_id existing = Some i ->
  bigint E i = Some z ->
  committed (db w) !! z = Some old ->
  MetatypeKeyMapper.updated_row E (user_id user) old existing = Some updated ->
  MetatypeKeyMapper.created_row E (user_id user) new = Some created ->
  (forall stmt, db_error E stmt = None) ->
  let out := MetatypeKeyRepository.bulkSave E user [new; existing] w in
  exists j new' existing',
    j <> z
    /\ out.1.1 = Success true
    /\ out.1.2 = [new'; existing']
    /\ MetatypeKey.id new' = Val (pretty z)
    /\ MetatypeKey.id existing' = Val (pretty j)
    /\ committed (db out.2) !! z = Some updated
    /\ committed (db out.2) !! j = Some created.
Proof.
  intros Hvn Hve Hn He Hz Hold Hupdated Hcreated Hdb. cbv zeta.
  rewrite bulkSave_valid by (repeat constructor; assumption).
  assert (Hu : keys_to_update [new; existing] = [existing]).
  { unfold keys_to_update. simpl. now rewrite Hn, He. }
  assert (Hc : keys_to_create [new; existing] = [new]).
  { unfold keys_to_create. simpl. now rewrite Hn, He. }
  rewrite Hu, Hc. unfold error_unless_empty. rewrite !Hdb.
  assert (Hnamed : MetatypeKeyMapper.named_row E existing = Some (Some z))
    by (now rewrite (named_row_has_id E existing i He), Hz).
  rewrite (fullUpdateStatement_single E (user_id user) existing old updated
             (committed (db w)) z Hnamed Hold Hupdated).
  simpl. rewrite Hcreated. simpl.
  set (j := fresh (dom (<[z := updated]> (committed (db w))))).
  assert (Hj : <[z := updated]> (committed (db w)) !! j = None)
    by (apply not_elem_of_dom, is_fresh).
  assert (Hjz : j <> z) by (intros Heq; rewrite Heq, lookup_insert_eq in Hj; discriminate).
  eexists j, _, _. split; [exact Hjz |]. split; [reflexivity |].
  split; [reflexivity |]. split; [reflexivity |]. split; [reflexivity |]. split.
  - rewrite lookup_insert_ne by exact Hjz. apply lookup_insert_eq.
  - apply lookup_insert_eq.
Qed.

Lemma bulkSave_results_by_position_witness :
  let out := MetatypeKeyRepository.bulkSave sample_collaborators sample_user
               [sample_key Absent "10" "b"; sample_key (Val "1") "10" "a"] world_with_key in
  exists j new' existing',
    j <> 1%Z
    /\ out.1.1 = Success true
    /\ out.1.2 = [new'; existing']
    /\ MetatypeKey.id new' = Val "1"
    /\ MetatypeKey.id existing' = Val (pretty j).
Proof.
  intros out.
  destruct (bulkSave_results_by_position sample_collaborators sample_user
              (sample_key Absent "10" "b") (sample_key (Val "1") "10" "a")
              world_with_key "1" 1%Z (sample_row 10 "a")
              (MetatypeKeyMapper.archived_row false (Some "42") (sample_row 10 "a"))
              {| KeyRow.metatype_id := Some 10%Z; KeyRow.container_id := Some 1%Z;
                 KeyRow.name := "b"; KeyRow.description := ""; KeyRow.property_name := "b";
                 KeyRow.required := false; KeyRow.data_type := "string";
                 KeyRow.options := None; KeyRow.default_value := None; KeyRow.validation := None;
                 KeyRow.created_by := Some "42"; KeyRow.modified_by := Some "42";
                 KeyRow.deleted_at := false |}
              eq_refl eq_refl eq_refl eq_refl eq_refl ltac:(vm_compute; reflexivity)
              ltac:(vm_compute; reflexivity) ltac:(vm_compute; reflexivity)
              ltac:(reflexivity))
    as (j & new' & existing' & Hj & Hok & Hk & Hn & He & _).
  exists j, new', existing'. repeat split; assumption.
Defined.

(** X16.  [bulkSave] touches only the rows its keys name: a stored row whose
    id is not what the database reads the id of a key of the list as is the
    same afterwards, whether the call succeeds or fails. *)
Theorem bulkSave_leaves_other_rows
    (E : Collaborators) (user : User) (k : list MetatypeKey.t) (w : World)
    (z : Z) (row : KeyRow.t) :
  committed (db w) !! z = Some row ->
  (forall key i, In key k -> MetatypeKey.has_id key = Some i -> bigint E i <> Some z) ->
  committed (db (snd (MetatypeKeyRepository.bulkSave E user k w))) !! z = Some row.
Proof.
  intros Hrow Hother.
  destruct (valid_or_invalid E k) as [Hall | Hex].
  - rewrite (bulkSave_valid E user k w Hall).
    destruct (db_error E StartTransaction);
      [| destruct (error_unless_empty E (keys_to_update k) BulkUpdateStatement);
         [| destruct (MetatypeKeyMapper.fullUpdateStatement E (user_id user)
                        (keys_to_update k) (committed (db w)))
              as [[tbl1 objs1] |] eqn:Hupdated;
            [destruct (error_unless_empty E (keys_to_create k) BulkCreateStatement);
             [| destruct (MetatypeKeyMapper.createStatement E (user_id user)
                            (keys_to_create k) (fst (tbl1, objs1)))
                  as [[tbl2 objs2] |] eqn:Hcreated;
                [destruct (db_error E CompleteTransaction) |]] |]]];
      simpl; try exact Hrow.
    simpl in Hcreated.
    destruct (createStatement_rows E (user_id user) _ _ _ _ Hcreated)
      as (_ & _ & _ & _ & _ & _ & _ & Hkeep & _).
    apply Hkeep.
    rewrite (update_rows_other E (user_id user) _ _ _ _ _ z Hupdated); [exact Hrow |].
    intros key Hkey Hnamed.
    apply List.filter_In in Hkey as [Hkey Hsome].
    apply bool_decide_eq_true in Hsome as [i Hi].
    rewrite (named_row_has_id E key i Hi) in Hnamed.
    apply (Hother key i Hkey Hi).
    destruct (bigint E i); simpl in Hnamed; congruence.
  - destruct (bulkSave_invalid E user k w Hex) as (e & c & ->). exact Hrow.
Qed.

Lemma bulkSave_leaves_other_rows_witness :
  committed (db (snd (MetatypeKeyRepository.bulkSave sample_collaborators sample_user
                        [sample_key Absent "10" "b"; sample_key (Val "7") "10" "x"]
                        world_with_key))) !! 1%Z
  = Some (sample_row 10 "a").
Proof.
  apply (bulkSave_leaves_other_rows sample_collaborators sample_user
           [sample_key Absent "10" "b"; sample_key (Val "7") "10" "x"] world_with_key 1%Z).
  - vm_compute. reflexivity.
  - intros key i [<- | [<- | []]]; [discriminate |].
    intros [= <-]. vm_compute. discriminate.
Defined.

(** ** The statements of the mapper, once more *)

Section more_statement_facts.
Import MetatypeKey.
Variable E : Collaborators.
Variable userID : option string.

Lemma update_rows_keeps (keys : list t) (seen : list Z) (tbl tbl' : table) (objs : list t)
    (j : Z) (old : KeyRow.t) :
  MetatypeKeyMapper.update_rows E userID keys seen tbl = Some (tbl', objs) ->
  tbl !! j = Some old ->
  exists new,
    tbl' !! j = Some new
    /\ KeyRow.created_by new = KeyRow.created_by old
    /\ KeyRow.deleted_at new = KeyRow.deleted_at old.
Proof.
  revert seen tbl tbl' objs old.
  induction keys as [| key rest IH]; intros seen tbl tbl' objs old; simpl.
  - intros [= <- <-] Hold. now exists old.
  - destruct (MetatypeKeyMapper.named_row E key) as [[i |] |]; simpl;
      [| apply IH | discriminate].
    destruct (tbl !! i) as [old0 |] eqn:Hi; [| apply IH].
    destruct (MetatypeKeyMapper.updated_row E userID old0 key) as [row |] eqn:Hrow;
      [| discriminate]. simpl.
    destruct (bool_decide (i ∈ seen)); [apply IH |].
    destruct (MetatypeKeyMapper.update_rows E userID rest (i :: seen) (<[i := row]> tbl))
      as [[tbl1 objs1] |] eqn:Hrest; [| discriminate]. simpl.
    intros [= <- <-] Hold.
    apply updated_row_Some in Hrow as (_ & _ & _ & _ & Hcre & _ & Hdel).
    destruct (decide (i = j)) as [-> | Hne].
    + assert (old0 = old) as -> by congruence.
      destruct (IH _ _ _ _ row Hrest ltac:(apply lookup_insert_eq))
        as (new & Hnew & H1 & H2).
      exists new. split; [exact Hnew |]. split; congruence.
    + apply (IH _ _ _ _ old Hrest). now rewrite lookup_insert_ne.
Qed.

Lemma update_rows_length (keys : list t) (seen : list Z) (tbl tbl' : table)
    (objs : list t) :
  MetatypeKeyMapper.update_rows E userID keys seen tbl = Some (tbl', objs) ->
  length objs <= length keys.
Proof.
  revert seen tbl tbl' objs.
  induction keys as [| key rest IH]; intros seen tbl tbl' objs; simpl.
  - intros [= <- <-]. simpl. lia.
  - assert (Hskip : MetatypeKeyMapper.update_rows E userID rest seen tbl
                    = Some (tbl', objs) -> length objs <= S (length rest))
      by (intros H; apply IH in H; lia).
    destruct (MetatypeKeyMapper.named_row E key) as [[i |] |]; simpl;
      [| exact Hskip | discriminate].
    destruct (tbl !! i) as [old |]; [| exact Hskip].
    destruct (MetatypeKeyMapper.updated_row E userID old key) as [row |];
      [| discriminate]. simpl.
    destruct (bool_decide (i ∈ seen)); [exact Hskip |].
    destruct (MetatypeKeyMapper.update_rows E userID rest (i :: seen) (<[i := row]> tbl))
      as [[tbl1 objs1] |] eqn:Hrest; [| discriminate]. simpl.
    intros [= <- <-]. apply IH in Hrest. simpl. lia.
Qed.
End more_statement_facts.



(** X18.  The update statement neither inserts nor removes a row, returns at
    most one row per key, and leaves the creator and the archived flag of
    every stored row as they were. *)
Theorem fullUpdateStatement_keeps_rows
    (E : Collaborators) (userID : option string) (keys : list MetatypeKey.t)
    (tbl tbl' : table) (objs : list MetatypeKey.t) :
  MetatypeKeyMapper.fullUpdateStatement E userID keys tbl = Some (tbl', objs) ->
  dom tbl' = dom tbl
  /\ length objs <= length keys
  /\ (forall j old,
         tbl !! j = Some old ->
         exists new,
           tbl' !! j = Some new
           /\ KeyRow.created_by new = KeyRow.created_by old
           /\ KeyRow.deleted_at new = KeyRow.deleted_at old).
Proof.
  unfold MetatypeKeyMapper.fullUpdateStatement. intros Hout. split; [| split].
  - now apply update_rows_dom in Hout.
  - now apply update_rows_length in Hout.
  - intros j old. now apply (update_rows_keeps E userID keys [] tbl tbl' objs).
Qed.

Lemma fullUpdateStatement_keeps_rows_witness :
  exists tbl' objs new,
    MetatypeKeyMapper.fullUpdateStatement sample_collaborators (Some "42")
      [sample_key (Val "1") "20" "renamed"; sample_key (Val "01") "30" "again";
       sample_key (Val "7") "20" "x"]
      (committed (db world_with_key)) = Some (tbl', objs)
    /\ length objs <= 3
    /\ tbl' !! 1%Z = Some new
    /\ KeyRow.created_by new = None
    /\ KeyRow.deleted_at new = false.
Proof.
  destruct (MetatypeKeyMapper.fullUpdateStatement sample_collaborators (Some "42")
              [sample_key (Val "1") "20" "renamed"; sample_key (Val "01") "30" "again";
               sample_key (Val "7") "20" "x"]
              (committed (db world_with_key))) as [[tbl' objs] |] eqn:Hout;
    [| vm_compute in Hout; discriminate].
  destruct (fullUpdateStatement_keeps_rows sample_collaborators (Some "42") _ _ _ _ Hout)
    as (_ & Hlen & Hkeep).
  destruct (Hkeep 1%Z (sample_row 10 "a") ltac:(vm_compute; reflexivity))
    as (new & Hnew & Hcre & Hdel).
  exists tbl', objs, new. now repeat split.
Defined.

(** ** Query flags and the handlers of the data source routes *)

Lemma lower_ascii_inv (b small : ascii) :
  lower_ascii b = small ->
  b = small \/ (b = ascii_of_nat (nat_of_ascii small - 32)
                /\ 97 <= nat_of_ascii small <= 122).
Proof.
  unfold lower_ascii.
  destruct ((65 <=? nat_of_ascii b)%nat && (nat_of_ascii b <=? 90)%nat) eqn:Hcap;
    [| now left].
  apply andb_prop in Hcap as [Hlo Hhi].
  apply Nat.leb_le in Hlo, Hhi.
  intros <-. right.
  rewrite nat_ascii_embedding by lia.
  replace (nat_of_ascii b + 32 - 32) with (nat_of_ascii b) by lia.
  rewrite ascii_nat_embedding. split; [reflexivity | lia].
Qed.

Lemma lower_ascii_cases (b small capital : ascii) :
  lower_ascii b = small ->
  capital = ascii_of_nat (nat_of_ascii small - 32) ->
  In b [small; capital].
Proof.
  intros Hb ->. apply lower_ascii_inv in Hb as [-> | [-> _]]; simpl; auto.
Qed.

(** X19.  A query flag is read as [true] exactly for a text of four letters
    that spells [true] in some mix of capitals and small letters; a
    parameter that is absent is read as [false]. *)
Theorem query_flag_spells_true (s : string) :
  query_flag VUndefined = false
  /\ (query_flag (VStr s) = true
      <-> exists a b c d,
          s = String a (String b (String c (String d EmptyString)))
          /\ In a ["t"; "T"]%char /\ In b ["r"; "R"]%char
          /\ In c ["u"; "U"]%char /\ In d ["e"; "E"]%char).
Proof.
  split; [reflexivity |].
  rewrite query_flag_spec. simpl String_. split.
  - destruct s as [| a [| b [| c [| d [| x rest]]]]]; simpl; try discriminate.
    intros [= Ha Hb Hc Hd]. exists a, b, c, d. split; [reflexivity |].
    repeat split; eapply lower_ascii_cases; solve [eassumption | reflexivity].
  - intros (a & b & c & d & -> & Ha & Hb & Hc & Hd). simpl in *.
    destruct Ha as [<- | [<- | []]], Hb as [<- | [<- | []]],
             Hc as [<- | [<- | []]], Hd as [<- | [<- | []]]; reflexivity.
Qed.

Lemma query_flag_spells_true_witness :
  query_flag (VStr "tRuE") = true.
Proof.
  apply (query_flag_spells_true "tRuE").
  exists "t"%char, "R"%char, "u"%char, "E"%char. simpl. tauto.
Defined.
Section handler_facts.
Import DataSourceHandlers.
Variable Config : Type.
Variable DataSource : Type.
Variable DataSourceRecord_of : DataSource -> option (DataSourceRecord Config).
Variable fromDataSourceRecord : DataSourceRecord Config -> option DataSource.
Variable ToNumber : value -> value.

(** X20.  The handlers that work on one data source (retrieve, data count,
    set active, set inactive, reprocess) answer the 404 failure [unable to
    find data source] and call no repository when the request carries no data
    source, and never answer a failure of their own when it carries one.
    For a data source that carries no record the handlers differ:
    [retrieveDataSource] answers with nothing, [dataCount] counts for no id,
    and [reprocessDataSource], which reads the id off the record without a
    check, throws. *)
Theorem handlers_need_a_data_source (req : Request Config DataSource) :
  let handlers :=
    [retrieveDataSource Config DataSource DataSourceRecord_of;
     dataCount Config DataSource DataSourceRecord_of;
     setActive Config DataSource;
     setInactive Config DataSource;
     reprocessDataSource Config DataSource DataSourceRecord_of] in
  (dataSource Config DataSource req = None ->
   Forall (fun handler =>
             handler req
             = respond_failure Config DataSource "unable to find data source" 404)
          handlers)
  /\ (dataSource Config DataSource req <> None ->
      Forall (fun handler =>
                forall e code, handler req <> respond_failure Config DataSource e code)
             handlers)
  /\ (forall source,
         dataSource Config DataSource req = Some source ->
         (DataSourceRecord_of source = None ->
          retrieveDataSource Config DataSource DataSourceRecord_of req
          = respond_record Config DataSource None
          /\ dataCount Config DataSource DataSourceRecord_of req
             = staging_count Config DataSource None
          /\ reprocessDataSource Config DataSource DataSourceRecord_of req
             = throws_TypeError Config DataSource)
         /\ (forall record,
                DataSourceRecord_of source = Some record ->
                reprocessDataSource Config DataSource DataSourceRecord_of req
                = repo_reprocess Config DataSource (id record))).
Proof.
  cbv zeta. split; [| split].
  - intros H.
    repeat constructor;
      unfold retrieveDataSource, dataCount, setActive, setInactive, reprocessDataSource;
      now rewrite H.
  - intros H. destruct (dataSource Config DataSource req) as [source |] eqn:Hs;
      [| congruence].
    repeat constructor;
      unfold retrieveDataSource, dataCount, setActive, setInactive, reprocessDataSource;
      rewrite Hs; try discriminate.
    now destruct (DataSourceRecord_of source).
  - intros source Hs.
    unfold retrieveDataSource, dataCount, reprocessDataSource. rewrite Hs. split.
    + intros ->. now repeat split.
    + now intros record ->.
Qed.

(** X21.  [listDataSources] reads the id of the container before anything
    else and throws when the request has none.  With a container it answers
    nothing at all when the query parameter [count] is given and is not
    [true]: it counts in that container when [count] is [true], lists in it
    when [count] is absent, and in the remaining case makes no repository
    call and sends no response. *)
Theorem listDataSources_count_not_true (req : Request Config DataSource) :
  let handled := listDataSources Config DataSource ToNumber req in
  let count := query Config DataSource req "count" in
  (container Config DataSource req = None -> handled = throws_TypeError Config DataSource)
  /\ (forall containerID,
         container Config DataSource req = Some containerID ->
         (count <> VUndefined -> query_flag count = false ->
          handled = no_response Config DataSource)
         /\ (count <> VUndefined -> query_flag count = true ->
             handled = repo_count Config DataSource containerID)
         /\ (count = VUndefined ->
             exists options,
               handled
               = repo_list Config DataSource containerID
                   (query_flag (query Config DataSource req "timeseries"))
                   (query_flag (query Config DataSource req "archived")) options)).
Proof.
  cbv zeta. unfold listDataSources. split; [now intros -> |].
  intros containerID ->. split; [| split].
  - destruct (query Config DataSource req "count"); intros Hc Hf;
      try congruence; now rewrite Hf.
  - destruct (query Config DataSource req "count"); intros Hc Hf;
      try congruence; now rewrite Hf.
  - intros ->. now eexists.
Qed.

(** X22.  [createDataSource] creates in the container of the route: the
    record that reaches the adapter factory carries the id of the route's
    container, and a [container_id] that the request body names has no
    influence on what the handler does; without a container nothing is
    saved. *)
Theorem createDataSource_in_route_container (req : Request Config DataSource) :
  let create := createDataSource Config DataSource fromDataSourceRecord in
  (container Config DataSource req = None -> forall source user,
      create req <> repo_save Config DataSource source user)
  /\ (forall containerID,
         container Config DataSource req = Some containerID ->
         (forall source user,
             create req = repo_save Config DataSource source user ->
             user = currentUser Config DataSource req
             /\ exists record,
                 fromDataSourceRecord record = Some source
                 /\ container_id record = containerID)
         /\ (forall other,
                create req
                = create {| container := container Config DataSource req;
                            dataSource := dataSource Config DataSource req;
                            currentUser := currentUser Config DataSource req;
                            query := query Config DataSource req;
                            body := set_container_id (body Config DataSource req) other |})).
Proof.
  cbv zeta. unfold createDataSource. split.
  - intros ->. discriminate.
  - intros containerID ->. split.
    + intros source user.
      destruct (fromDataSourceRecord
                  (set_container_id (body Config DataSource req) containerID))
        as [found |] eqn:Hf; [| discriminate].
      intros [= <- <-]. split; [reflexivity |]. eexists. split; [exact Hf | reflexivity].
    + intros other. reflexivity.
Qed.
End handler_facts.

Lemma handlers_need_a_data_source_witness :
  DataSourceHandlers.setActive unit (option (DataSourceHandlers.DataSourceRecord unit))
    (sample_request (Some (Some "1")) None VUndefined (sample_record None "standard"))
  = DataSourceHandlers.respond_failure unit (option (DataSourceHandlers.DataSourceRecord unit))
      "unable to find data source" 404
  /\ DataSourceHandlers.reprocessDataSource unit
       (option (DataSourceHandlers.DataSourceRecord unit)) (fun source => source)
       (sample_request (Some (Some "1")) (Some None) VUndefined
          (sample_record None "standard"))
     = DataSourceHandlers.throws_TypeError unit
         (option (DataSourceHandlers.DataSourceRecord unit)).
Proof.
  split.
  - pose proof (proj1 (handlers_need_a_data_source unit
                         (option (DataSourceHandlers.DataSourceRecord unit))
                         (fun source => source)
                         (sample_request (Some (Some "1")) None VUndefined
                            (sample_record None "standard"))) eq_refl) as H.
    apply (proj1 (List.Forall_forall _ _) H). simpl. tauto.
  - destruct (handlers_need_a_data_source unit
                (option (DataSourceHandlers.DataSourceRecord unit))
                (fun source => source)
                (sample_request (Some (Some "1")) (Some None) VUndefined
                   (sample_record None "standard"))) as (_ & _ & H).
    destruct (H None eq_refl) as [Hnone _].
    now destruct (Hnone eq_refl) as (_ & _ & Hthrows).
Defined.

Lemma listDataSources_count_not_true_witness :
  DataSourceHandlers.listDataSources unit (option (DataSourceHandlers.DataSourceRecord unit))
    (fun v => v)
    (sample_request (Some (Some "1")) None (VStr "false") (sample_record None "standard"))
  = DataSourceHandlers.no_response unit (option (DataSourceHandlers.DataSourceRecord unit))
  /\ DataSourceHandlers.listDataSources unit
       (option (DataSourceHandlers.DataSourceRecord unit)) (fun v => v)
       (sample_request None None (VStr "true") (sample_record None "standard"))
     = DataSourceHandlers.throws_TypeError unit
         (option (DataSourceHandlers.DataSourceRecord unit)).
Proof.
  split.
  - destruct (listDataSources_count_not_true unit
                (option (DataSourceHandlers.DataSourceRecord unit)) (fun v => v)
                (sample_request (Some (Some "1")) None (VStr "false")
                   (sample_record None "standard"))) as [_ H].
    destruct (H (Some "1") eq_refl) as [Hnone _].
    apply Hnone; [discriminate | reflexivity].
  - apply (listDataSources_count_not_true unit
             (option (DataSourceHandlers.DataSourceRecord unit)) (fun v => v)
             (sample_request None None (VStr "true") (sample_record None "standard"))).
    reflexivity.
Defined.

Lemma createDataSource_in_route_container_witness :
  DataSourceHandlers.createDataSource unit
    (option (DataSourceHandlers.DataSourceRecord unit)) standard_only
    (sample_request (Some (Some "1")) None VUndefined (sample_record (Some "666") "standard"))
  = DataSourceHandlers.createDataSource unit
      (option (DataSourceHandlers.DataSourceRecord unit)) standard_only
      (sample_request (Some (Some "1")) None VUndefined (sample_record None "standard")).
Proof.
  destruct (createDataSource_in_route_container unit
              (option (DataSourceHandlers.DataSourceRecord unit)) standard_only
              (sample_request (Some (Some "1")) None VUndefined
                 (sample_record (Some "666") "standard"))) as [_ Hcreate].
  destruct (Hcreate (Some "1") eq_refl) as [_ Hsame].
  exact (Hsame None).
Defined.

(** ** The constructors of [import.ts] *)

Lemma if_truthy_not_empty (s : option string) : ImportRecord.if_truthy s <> Some "".
Proof.
  unfold ImportRecord.if_truthy. destruct s as [x |]; [| discriminate].
  destruct (String.eqb_spec x ""); [discriminate | congruence].
Qed.

(** X23.  The constructors of [Import] and [DataStaging] copy an optional
    text only when it is not empty: a constructed import never has an empty
    status message or reference, a constructed staged record never has an
    empty shape hash, and a staged record starts with no errors, not
    inserted, with the payload it was given. *)
Theorem constructors_copy_no_empty_text
    (Config : Type) (StandardDataSourceConfig : Config) :
  (forall input,
      let i := ImportRecord.new input in
      ImportRecord.status_message i <> Some ""
      /\ ImportRecord.reference i <> Some ""
      /\ ImportRecord.data_source_id i = ImportRecord.input_data_source_id <$> input)
  /\ (forall input,
         let staged := DataStaging.new Config StandardDataSourceConfig input in
         DataStaging.shape_hash Config staged <> Some ""
         /\ DataStaging.errors Config staged = []
         /\ DataStaging.inserted_at Config staged = None
         /\ (forall given, input = Some given ->
                           DataStaging.data Config staged
                           = DataStaging.input_data given)).
Proof.
  split.
  - intros [input |]; simpl; repeat split; try discriminate; apply if_truthy_not_empty.
  - intros [input |]; simpl; repeat split; try discriminate;
      try apply if_truthy_not_empty.
    now intros given [= ->].
Qed.
(** X24.  [bulkSave] stops at the first key that fails validation: it
    answers that key's errors, looks at no later key, writes nothing to the
    database and leaves the key objects alone, but the cache entries of the
    keys before it have already been dropped. *)
Theorem bulkSave_stops_at_first_invalid_key
    (E : Collaborators) (user : User) (before after : list MetatypeKey.t)
    (bad : MetatypeKey.t) (errors : list string) (w : World) :
  Forall (fun key => validationErrors E key = None) before ->
  validationErrors E bad = Some errors ->
  MetatypeKeyRepository.bulkSave E user (before ++ bad :: after) w
  = (Failure ("some keys do not pass validation " ++ String.concat "," errors)%string 500,
     before ++ bad :: after,
     {| db := db w;
        cache := fold_left (fun acc key => MetatypeKeyRepository.clear_parent E key acc)
                   before (cache w) |}).
Proof.
  intros Hbefore Hbad.
  assert (Hsort : forall toCreate toUpdate c,
             MetatypeKeyRepository.sort_keys E (before ++ bad :: after) toCreate toUpdate c
             = inl (errors,
                    fold_left (fun acc key => MetatypeKeyRepository.clear_parent E key acc)
                      before c)).
  { induction Hbefore as [| key before Hkey _ IH]; intros toCreate toUpdate c; simpl.
    - now rewrite Hbad.
    - rewrite Hkey. destruct (MetatypeKey.has_id key); apply IH. }
  unfold MetatypeKeyRepository.bulkSave. now rewrite Hsort.
Qed.

Lemma bulkSave_stops_at_first_invalid_key_witness :
  let k := [sample_key Absent "10" "b"; sample_key Absent "20" ""; sample_key Absent "30" ""] in
  MetatypeKeyRepository.bulkSave sample_collaborators sample_user k world_with_key
  = (Failure "some keys do not pass validation name should not be empty" 500, k,
     {| db := db world_with_key; cache := ∅ |}).
Proof.
  intros k.
  pose proof (bulkSave_stops_at_first_invalid_key sample_collaborators sample_user
                [sample_key Absent "10" "b"] [sample_key Absent "30" ""]
                (sample_key Absent "20" "") ["name should not be empty"] world_with_key
                ltac:(repeat constructor) eq_refl) as Hstop.
  etransitivity; [exact Hstop |].
  vm_compute. reflexivity.
Defined.
